(** * Synthetic CHF patient data: a model of [src/data/generate_synthetic_data.py]

    The script draws a demographic profile for each of [NUM_PATIENTS]
    patients, simulates [DAYS_OF_DATA] daily readings for each of them and,
    when the destination is configured, loads the records into a search index.

    Modelling choices.
    - Python dictionaries are finite maps from strings to dynamically typed
      [value]s.
    - Python floats are idealised as exact rationals ([Q]); [round(x, 2)] is
      rounding to the nearest hundredth, ties to even.
    - A [datetime] is its number of microseconds since a fixed epoch; an ISO
      string produced by [isoformat] is held as the instant it denotes, since
      [fromisoformat] inverts [isoformat] on naive datetimes.
    - The [random] module, Faker's [uuid4] and the wall clock are an abstract
      source of nondeterminism ([Source]) threaded through the program by a
      state-and-error monad; each library call is specified by its documented
      contract only.  [Tape] gives a concrete source that replays a list of
      raw draws. *)

From Stdlib Require Import ZArith QArith Qround Lia Lqa String.
From stdpp Require Import base option list strings pretty gmap fin_maps.
Close Scope Q_scope.

(** ** Values and dictionaries *)

Inductive value : Type :=
  | VInt (z : Z)
  | VFloat (q : Q)
  | VBool (b : bool)
  | VStr (s : string)
  | VList (l : list string)
  | VIso (t : Z).

Abbreviation dict := (gmap string value).

(** [v == "name"] for a string literal on the right. *)
Definition str_eq (v : value) (name : string) : bool :=
  match v with
  | VStr s => String.eqb s name
  | _ => false
  end.

(** [d.update(other)]: the entries of [other] win. *)
Definition dict_update (d other : dict) : dict := other ∪ d.

(** Numeric reading of a value, as Python compares [0 == 0.0]. *)
Definition as_number (v : value) : option Q :=
  match v with
  | VInt z => Some (inject_Z z)
  | VFloat q => Some q
  | _ => None
  end.

(** ** Dates *)

Definition MICROS_PER_DAY : Z := 86400000000.

(** [timedelta(days=d)] in microseconds. *)
Definition timedelta_days (d : Z) : Z := (d * MICROS_PER_DAY)%Z.

(** The [.days] attribute of a (normalised) timedelta. *)
Definition td_days (delta : Z) : Z := (delta / MICROS_PER_DAY)%Z.

(** [datetime.fromisoformat(v)]; anything but an ISO string raises. *)
Definition fromisoformat (v : value) : option Z :=
  match v with
  | VIso t => Some t
  | _ => None
  end.

(** ** Rounding *)

Definition round_half_even (q : Q) : Z :=
  let f := Qfloor q in
  match (q - inject_Z f ?= 1 # 2)%Q with
  | Lt => f
  | Gt => (f + 1)%Z
  | Eq => if Z.even f then f else (f + 1)%Z
  end.

(** [round(x, n)] on a float: the nearest multiple of [10^-n]. *)
Definition round_ndigits (x : Q) (n : nat) : Q :=
  Qmake (round_half_even (x * inject_Z (10 ^ Z.of_nat n))) (10 ^ Pos.of_nat n).

(** [round(v, n)] on a dynamically typed value: an [int] is returned
    unchanged, a [float] is rounded, anything else is a [TypeError]. *)
Definition py_round (v : value) (n : nat) : option value :=
  match v with
  | VInt z => Some (VInt z)
  | VFloat q => Some (VFloat (round_ndigits q n))
  | _ => None
  end.

(** ** Lists *)

(** [range(n)]. *)
Definition range (n : nat) : list Z := Z.of_nat <$> seq 0 n.

(** [l[i]] with Python's negative indices; out of range is an [IndexError]. *)
Definition py_index {A} (l : list A) (i : Z) : option A :=
  let len := Z.of_nat (length l) in
  if (0 <=? i)%Z then l !! Z.to_nat i
  else if (- len <=? i)%Z then l !! Z.to_nat (len + i)
  else None.

(** ** The source of nondeterminism *)

Class Source (G : Type) : Type := {
  (** [random.randint(a, b)] *)
  randint : Z → Z → G → Z * G;
  (** [random.uniform(a, b)] *)
  uniform : Q → Q → G → Q * G;
  (** [random.choice(seq)]; [None] is the [IndexError] on an empty [seq] *)
  choice : ∀ A : Type, list A → G → option A * G;
  (** [random.choices(population, weights=weights, k=k)] *)
  choices : ∀ A : Type, list A → list Q → nat → G → list A * G;
  (** [random.sample(population, k=k)] *)
  sample : ∀ A : Type, list A → nat → G → list A * G;
  (** [fake.uuid4()] *)
  uuid4 : G → string * G;
  (** [datetime.now()] *)
  now : G → Z * G;

  randint_range : ∀ a b g, (a ≤ b)%Z → (a ≤ (randint a b g).1 ≤ b)%Z;
  uniform_range : ∀ a b g, (a <= b)%Q →
    (a <= (uniform a b g).1)%Q ∧ ((uniform a b g).1 <= b)%Q;
  choice_elem : ∀ A (l : list A) g, l ≠ [] →
    ∃ x, (choice A l g).1 = Some x ∧ x ∈ l;
  choices_spec : ∀ A (population : list A) weights k g,
    population ≠ [] → length weights = length population →
    (0 < foldr Qplus 0 weights)%Q →
    length (choices A population weights k g).1 = k ∧
    ∀ x, x ∈ (choices A population weights k g).1 → x ∈ population;
  sample_spec : ∀ A (population : list A) k g,
    k ≤ length population →
    length (sample A population k g).1 = k ∧
    (∀ x, x ∈ (sample A population k g).1 → x ∈ population) ∧
    (NoDup population → NoDup (sample A population k g).1)
}.

Arguments choice {G _ A} _ _.
Arguments choices {G _ A} _ _ _ _.
Arguments sample {G _ A} _ _ _.

(** ** The state-and-error monad *)

Definition M (G A : Type) : Type := G → option (A * G).

Definition ret {G A} (a : A) : M G A := λ g, Some (a, g).

Definition bind {G A B} (m : M G A) (k : A → M G B) : M G B :=
  λ g, match m g with
       | Some (a, g') => k a g'
       | None => None
       end.

(** A library call that cannot fail. *)
Definition draw {G A} (f : G → A * G) : M G A := λ g, Some (f g).

(** A library call or a lookup that raises on [None]. *)
Definition draw_opt {G A} (f : G → option A * G) : M G A :=
  λ g, match f g with
       | (Some a, g') => Some (a, g')
       | (None, _) => None
       end.

Definition try {G A} (o : option A) : M G A :=
  λ g, match o with
       | Some a => Some (a, g)
       | None => None
       end.

Notation "x <- m ;; k" := (bind m (λ x, k))
  (at level 100, m at next level, right associativity, only parsing).

(** [d[k]]: a missing key is a [KeyError]. *)
Definition getitem {G} (d : dict) (k : string) : M G value := try (d !! k).

Fixpoint foldM {G St X} (f : St → X → M G St) (s : St) (xs : list X)
    : M G St :=
  match xs with
  | [] => ret s
  | x :: xs' => s' <- f s x ;; foldM f s' xs'
  end.

(** ** Configuration *)

Definition INDEX_NAME : string := "patients".
Definition NUM_PATIENTS : nat := 100.
Definition DAYS_OF_DATA : nat := 30.

(** The profile table, in its insertion order: name, weight, risk factor. *)
Definition PATIENT_PROFILES : list (string * (Q * string)) :=
  [ ("stable", (0.7%Q, "none"));
    ("high_risk_weight_gain", (0.2%Q, "weight_gain"));
    ("non_adherent", (0.1%Q, "medication")) ].

Definition COMORBIDITIES : list string :=
  ["Diabetes"; "Hypertension"; "Chronic Kidney Disease"; "COPD"].

(** The keys of [base_patient_info]. *)
Definition BASE_KEYS : list string :=
  ["patient_id"; "age"; "gender"; "comorbidities"; "previous_readmissions";
   "discharge_date"; "profile_type"].

(** The keys a daily record adds to the base fields. *)
Definition DAILY_KEYS : list string :=
  ["date"; "weight"; "blood_pressure_systolic"; "blood_pressure_diastolic";
   "heart_rate"; "oxygen_saturation"; "medication_adherence";
   "weight_gain_over_3_days"; "consecutive_missed_meds";
   "days_since_discharge"; "symptom_shortness_of_breath"; "symptom_fatigue";
   "symptom_swelling"].

(** ** The generator *)

Record series_state : Type := {
  records : list dict;
  daily_weights : list Q;
  daily_adherence : list bool;
  current_weight : Q
}.

Section Generator.
Context {G : Type} `{Source G}.

(** [choose_profile()] (lines 30-34). *)
Definition choose_profile : M G string :=
  let profiles := fst <$> PATIENT_PROFILES in
  let weights := (λ p, fst (snd p)) <$> PATIENT_PROFILES in
  picked <- draw (choices profiles weights 1) ;;
  try (py_index picked 0).

(** [base_info["profile_type"] == name] *)
Definition is_profile (base_info : dict) (name : string) : M G bool :=
  p <- getitem base_info "profile_type" ;;
  ret (str_eq p name).

(** [random.randint(5, 20) if base_info["profile_type"] == name else -1] *)
Definition start_day (base_info : dict) (name : string) : M G Z :=
  b <- is_profile base_info name ;;
  if b then draw (randint 5 20) else ret (-1)%Z.

(** One iteration of the loop over [range(DAYS_OF_DATA)] (lines 74-130):
    the state carries [records], [daily_weights], [daily_adherence] and
    [current_weight] from one day to the next. *)
Definition simulate_day (base_info : dict) (discharge_date : Z)
    (weight_gain_start_day non_adherent_start_day : Z)
    (st : series_state) (day : Z) : M G series_state :=
  let record_date := (discharge_date + timedelta_days day)%Z in
  let daily_record := <["date" := VIso record_date]> base_info in
  let days_since_discharge := td_days (record_date - discharge_date) in
  jitter <- draw (uniform (-0.5)%Q 0.5%Q) ;;
  let w := (current_weight st + jitter)%Q in
  sob <- draw (randint 1 3) ;;
  fatigue <- draw (randint 1 4) ;;
  swelling <- draw (randint 1 3) ;;
  let symptoms : dict :=
    <["symptom_swelling" := VInt swelling]>
      (<["symptom_fatigue" := VInt fatigue]>
        (<["symptom_shortness_of_breath" := VInt sob]> ∅)) in
  high_risk <- is_profile base_info "high_risk_weight_gain" ;;
  ws <- (if high_risk && (weight_gain_start_day <=? day)%Z then
           gain <- draw (uniform 1.0%Q 2.5%Q) ;;
           sob' <- draw (randint 4 8) ;;
           swelling' <- draw (randint 4 8) ;;
           ret ((w + gain)%Q,
                <["symptom_swelling" := VInt swelling']>
                  (<["symptom_shortness_of_breath" := VInt sob']> symptoms))
         else ret (w, symptoms)) ;;
  let w := fst ws in
  let symptoms := snd ws in
  non_adherent <- is_profile base_info "non_adherent" ;;
  ms <- (if non_adherent && (non_adherent_start_day <=? day)%Z then
           fatigue' <- draw (randint 5 9) ;;
           ret (false, <["symptom_fatigue" := VInt fatigue']> symptoms)
         else ret (true, symptoms)) ;;
  let medication_adherence := fst ms in
  let symptoms := snd ms in
  let weights := daily_weights st ++ [w] in
  let adherence := daily_adherence st ++ [medication_adherence] in
  weight_gain_over_3_days <-
    (if (3 <=? day)%Z then
       weight_3_days_ago <- try (py_index weights (day - 3)) ;;
       ret (VFloat (w - weight_3_days_ago)%Q)
     else ret (VInt 0)) ;;
  consecutive_missed_meds <-
    (if negb medication_adherence && (1 <=? day)%Z then
       yesterday <- try (py_index adherence (day - 1)) ;;
       ret (if negb yesterday then 2%Z else 0%Z)
     else ret 0%Z) ;;
  systolic <- draw (randint 110 160) ;;
  diastolic <- draw (randint 70 100) ;;
  heart_rate <- draw (randint 60 100) ;;
  oxygen <- draw (uniform 92%Q 99%Q) ;;
  rounded_gain <- try (py_round weight_gain_over_3_days 2) ;;
  let fields : dict :=
    <["days_since_discharge" := VInt days_since_discharge]>
    (<["consecutive_missed_meds" := VInt consecutive_missed_meds]>
    (<["weight_gain_over_3_days" := rounded_gain]>
    (<["medication_adherence" := VBool medication_adherence]>
    (<["oxygen_saturation" := VFloat (round_ndigits oxygen 2)]>
    (<["heart_rate" := VInt heart_rate]>
    (<["blood_pressure_diastolic" := VInt diastolic]>
    (<["blood_pressure_systolic" := VInt systolic]>
    (<["weight" := VFloat (round_ndigits w 2)]> ∅)))))))) in
  let daily_record := dict_update (dict_update daily_record fields) symptoms in
  ret {| records := records st ++ [daily_record];
         daily_weights := weights;
         daily_adherence := adherence;
         current_weight := w |}.

(** What [generate_daily_time_series] computes before its loop: the seed
    weight, the parsed discharge date and the two trigger days. *)
Definition series_setup (base_info : dict) : M G (Q * Z * Z * Z) :=
  seed <- draw (uniform 150.0%Q 250.0%Q) ;;
  dd <- getitem base_info "discharge_date" ;;
  discharge_date <- try (fromisoformat dd) ;;
  weight_gain_start_day <- start_day base_info "high_risk_weight_gain" ;;
  non_adherent_start_day <- start_day base_info "non_adherent" ;;
  ret (seed, discharge_date, weight_gain_start_day, non_adherent_start_day).

Definition initial_state (seed : Q) : series_state :=
  {| records := []; daily_weights := []; daily_adherence := [];
     current_weight := seed |}.

(** The loop of [generate_daily_time_series], with its local lists. *)
Definition series_loop (base_info : dict) (setup : Q * Z * Z * Z)
    : M G series_state :=
  let '(seed, discharge_date, wg_start, na_start) := setup in
  foldM (simulate_day base_info discharge_date wg_start na_start)
        (initial_state seed) (range DAYS_OF_DATA).

(** [generate_daily_time_series(base_info)] (lines 62-132). *)
Definition generate_daily_time_series (base_info : dict) : M G (list dict) :=
  setup <- series_setup base_info ;;
  st <- series_loop base_info setup ;;
  ret (records st).

(** The body of the loop of [generate_all_patient_data] up to and including
    the [base_patient_info] literal (lines 43-54). *)
Definition generate_base_patient_info : M G dict :=
  patient_id <- draw uuid4 ;;
  profile_type <- choose_profile ;;
  age <- draw (randint 65 95) ;;
  gender <- draw_opt (choice ["Male"; "Female"]) ;;
  k <- draw (randint 0 3) ;;
  comorbidities <- draw (sample COMORBIDITIES (Z.to_nat k)) ;;
  previous_readmissions <- draw (randint 0 5) ;;
  today <- draw now ;;
  ago <- draw (randint 30 90) ;;
  ret (<["profile_type" := VStr profile_type]>
      (<["discharge_date" := VIso (today - timedelta_days ago)]>
      (<["previous_readmissions" := VInt previous_readmissions]>
      (<["comorbidities" := VList comorbidities]>
      (<["gender" := VStr gender]>
      (<["age" := VInt age]>
      (<["patient_id" := VStr patient_id]> ∅))))))).

(** One iteration of the loop of [generate_all_patient_data] (lines 41-58):
    [all_patients_records.extend(daily_records)]. *)
Definition generate_patient (all_patients_records : list dict) (_ : Z)
    : M G (list dict) :=
  base_patient_info <- generate_base_patient_info ;;
  daily_records <- generate_daily_time_series base_patient_info ;;
  ret (all_patients_records ++ daily_records).

(** [generate_all_patient_data()] (lines 37-60). *)
Definition generate_all_patient_data : M G (list dict) :=
  foldM generate_patient [] (range NUM_PATIENTS).

End Generator.

(** ** A concrete source: replaying a tape of raw draws *)

Module Tape.

Definition tape : Type := list Z.

(** The next raw draw; an exhausted tape keeps giving 0. *)
Definition next (t : tape) : Z * tape :=
  match t with
  | [] => (0%Z, [])
  | x :: t' => (x, t')
  end.

Definition tape_randint (a b : Z) (t : tape) : Z * tape :=
  ((a + (next t).1 `mod` (b - a + 1))%Z, (next t).2).

(** The raw draw, reduced to 0..10^6, is a fraction of the interval in
    millionths. *)
Definition tape_uniform (a b : Q) (t : tape) : Q * tape :=
  ((a + (b - a) * ((next t).1 `mod` 1000001 # 1000000))%Q, (next t).2).

Definition tape_choice (A : Type) (l : list A) (t : tape)
    : option A * tape :=
  (l !! Z.to_nat ((next t).1 `mod` Z.of_nat (length l)), (next t).2).

(** The first element whose cumulative weight exceeds [u]; the last
    element when none does. *)
Fixpoint pick {A} (population : list A) (weights : list Q) (u : Q)
    : option A :=
  match population, weights with
  | [], _ => None
  | [x], _ => Some x
  | x :: _, [] => Some x
  | x :: population', w :: weights' =>
      if Qlt_le_dec u w then Some x else pick population' weights' (u - w)
  end.

Fixpoint tape_choices (A : Type) (population : list A) (weights : list Q)
    (k : nat) (t : tape) : list A * tape :=
  match k with
  | O => ([], t)
  | S k' =>
      let u := (foldr Qplus 0 weights * ((next t).1 `mod` 1000000 # 1000000))%Q in
      let rest := tape_choices A population weights k' (next t).2 in
      (option_list (pick population weights u) ++ rest.1, rest.2)
  end.

(** Selection without replacement: each pick leaves the pool. *)
Fixpoint tape_sample (A : Type) (pool : list A) (k : nat) (t : tape)
    : list A * tape :=
  match k with
  | O => ([], t)
  | S k' =>
      let j := Z.to_nat ((next t).1 `mod` Z.of_nat (length pool)) in
      match pool !! j with
      | Some a =>
          let rest := tape_sample A (delete j pool) k' (next t).2 in
          (a :: rest.1, rest.2)
      | None => ([], (next t).2)
      end
  end.

Definition tape_uuid4 (t : tape) : string * tape :=
  ("uuid-" +:+ pretty (next t).1, (next t).2).

Definition tape_now (t : tape) : Z * tape := next t.

End Tape.

(** ** Ingestion and the main block *)

(** What the program does to the outside world, in order. *)
Inductive event : Type :=
  | Print (line : string)
  | NewClient (endpoint api_key : string)
  | IndicesExists (index : string)
  | IndicesDelete (index : string)
  | OpenMapping
  | IndicesCreate (index : string)
  | Bulk (index : string) (documents : nat).

(** The external collaborator: what each call answers, [inl message] when
    it raises. *)
Record backend : Type := {
  new_client : string → string → string + ();
  indices_exists : string → string + bool;
  indices_delete : string → string + ();
  load_mapping : string + ();
  indices_create : string → string + ();
  bulk : string → list dict → string + nat
}.

Definition is_print (e : event) : bool :=
  match e with
  | Print _ => true
  | _ => false
  end.

(** The body of the [try] of [ingest_data]: the events so far and either
    the exception's message or the count of successes. *)
Definition ingest_body (es : backend) (index : string) (data : list dict)
    : list event * (string + nat) :=
  let t0 := [IndicesExists index] in
  match indices_exists es index with
  | inl e => (t0, inl e)
  | inr found =>
    let deleted :=
      if found then
        let t := t0 ++ [Print ("Deleting old index '" +:+ index +:+ "'...");
                        IndicesDelete index] in
        match indices_delete es index with
        | inl e => (t, Some e)
        | inr _ => (t, None)
        end
      else (t0, None) in
    match deleted with
    | (t1, Some e) => (t1, inl e)
    | (t1, None) =>
      let t2 := t1 ++ [Print ("Creating new index '" +:+ index +:+ "'...");
                       OpenMapping] in
      match load_mapping es with
      | inl e => (t2, inl e)
      | inr _ =>
        let t3 := t2 ++ [IndicesCreate index] in
        match indices_create es index with
        | inl e => (t3, inl e)
        | inr _ =>
          let t4 := t3 ++ [Print ("Ingesting " +:+ pretty (length data)
                                  +:+ " documents...");
                           Bulk index (length data)] in
          match bulk es index data with
          | inl e => (t4, inl e)
          | inr success => (t4, inr success)
          end
        end
      end
    end
  end.

Definition ingest_data (es : backend) (index : string) (data : list dict)
    : list event :=
  match ingest_body es index data with
  | (t, inr success) =>
      t ++ [Print ("Successfully ingested " +:+ pretty success +:+ " documents")]
  | (t, inl e) => t ++ [Print ("An error occurred: " +:+ e)]
  end.

(** Truthiness of [os.getenv(name)]: set and not empty. *)
Definition truthy (v : option string) : bool :=
  match v with
  | Some s => negb (String.eqb s "")
  | None => false
  end.

Record outcome : Type := {
  trace : list event;
  exit_code : Z;
  all_data : option (list dict)
}.

Definition SKIP_WARNING : string :=
  "
WARNING: ELASTICSEARCH_ENDPOINT and API_KEY must be set in your environment (.env or exported). Skipping ingestion.".

Section Main.
Context {G : Type} `{Source G}.

(** The [__main__] block; [env] is the process environment after
    [load_dotenv()].  An exception that nothing catches ends the process
    with exit code 1. *)
Definition main (env : gmap string string) (es : backend) (g : G) : outcome :=
  let t0 := [Print "Starting synthetic data generation..."] in
  match generate_all_patient_data g with
  | None => {| trace := t0; exit_code := 1; all_data := None |}
  | Some (data, _) =>
    let t1 := t0 ++ [Print ("Generated " +:+ pretty (length data)
                            +:+ " total records for " +:+ pretty NUM_PATIENTS
                            +:+ " patients")] in
    if negb (truthy (env !! "ELASTICSEARCH_ENDPOINT")
             && truthy (env !! "API_KEY")) then
      {| trace := t1 ++ [Print SKIP_WARNING];
         exit_code := 0; all_data := Some data |}
    else
      let endpoint := default "" (env !! "ELASTICSEARCH_ENDPOINT") in
      let api_key := default "" (env !! "API_KEY") in
      let t2 := t1 ++ [Print "
Connecting to Elasticsearch..."; NewClient endpoint api_key] in
      match new_client es endpoint api_key with
      | inl _ => {| trace := t2; exit_code := 1; all_data := Some data |}
      | inr _ =>
        {| trace := t2 ++ ingest_data es INDEX_NAME data;
           exit_code := 0; all_data := Some data |}
      end
  end.

End Main.

(** * Properties *)

(** ** The tape satisfies the library contracts *)

Module TapeLaws.
Import Tape.

Lemma tape_randint_range a b t :
  (a ≤ b)%Z → (a ≤ (tape_randint a b t).1 ≤ b)%Z.
Proof.
  intros Hab. unfold tape_randint. simpl.
  pose proof (Z.mod_pos_bound (next t).1 (b - a + 1)). lia.
Qed.

Lemma fraction_bounds (x : Z) :
  (0 <= x `mod` 1000001 # 1000000)%Q ∧ (x `mod` 1000001 # 1000000 <= 1)%Q.
Proof.
  pose proof (Z.mod_pos_bound x 1000001).
  split; unfold Qle; simpl; lia.
Qed.

Lemma tape_uniform_range a b t :
  (a <= b)%Q →
  (a <= (tape_uniform a b t).1)%Q ∧ ((tape_uniform a b t).1 <= b)%Q.
Proof.
  intros Hab. unfold tape_uniform. simpl.
  destruct (fraction_bounds (next t).1) as [H0 H1].
  set (f := ((next t).1 `mod` 1000001 # 1000000)%Q) in *.
  split; nra.
Qed.

Lemma tape_choice_elem A (l : list A) t :
  l ≠ [] → ∃ x, (tape_choice A l t).1 = Some x ∧ x ∈ l.
Proof.
  intros Hl. unfold tape_choice. simpl.
  assert (0 < length l) by (destruct l; [done | simpl; lia]).
  pose proof (Z.mod_pos_bound (next t).1 (Z.of_nat (length l))).
  destruct (lookup_lt_is_Some_2 l
              (Z.to_nat ((next t).1 `mod` Z.of_nat (length l)))) as [x Hx];
    [lia |].
  exists x. split; [done |]. by eapply list_elem_of_lookup_2.
Qed.

Lemma pick_elem A (population : list A) weights u :
  population ≠ [] → ∃ x, pick population weights u = Some x ∧ x ∈ population.
Proof.
  revert weights u. induction population as [| x [| y l] IH];
    intros weights u Hne; [done | |].
  - exists x. simpl. split; [done | by left].
  - destruct weights as [| w ws]; simpl.
    + exists x. split; [done | by left].
    + destruct (Qlt_le_dec u w).
      * exists x. split; [done | by left].
      * destruct (IH ws (u - w)%Q) as [z [Hz Hin]]; [done |].
        exists z. split; [done | by right].
Qed.

Lemma tape_choices_spec A (population : list A) weights k t :
  population ≠ [] →
  length (tape_choices A population weights k t).1 = k ∧
  ∀ x, x ∈ (tape_choices A population weights k t).1 → x ∈ population.
Proof.
  intros Hne. revert t. induction k as [| k IH]; intros t; simpl.
  - split; [done |]. intros x Hx. by apply elem_of_nil in Hx.
  - destruct (IH (next t).2) as [Hlen Hin].
    destruct (pick_elem A population weights
      (foldr Qplus 0 weights * ((next t).1 `mod` 1000000 # 1000000))%Q Hne)
      as [z [Hz Hzin]].
    rewrite Hz. simpl. split; [by rewrite Hlen |].
    intros x Hx. apply elem_of_cons in Hx as [-> | Hx]; auto.
Qed.

Lemma delete_lookup_not_in A (l : list A) j a :
  NoDup l → l !! j = Some a → a ∉ delete j l.
Proof.
  intros Hnd Hj Hin.
  rewrite delete_take_drop in Hin.
  rewrite <- (take_drop_middle l j a Hj) in Hnd.
  apply NoDup_app in Hnd as (_ & Hdisj & Hnd2).
  apply NoDup_cons in Hnd2 as [Hnot _].
  apply elem_of_app in Hin as [Hin | Hin]; [| done].
  apply (Hdisj a Hin). by left.
Qed.

Lemma tape_sample_spec A (population : list A) k t :
  k ≤ length population →
  length (tape_sample A population k t).1 = k ∧
  (∀ x, x ∈ (tape_sample A population k t).1 → x ∈ population) ∧
  (NoDup population → NoDup (tape_sample A population k t).1).
Proof.
  revert population t. induction k as [| k IH]; intros pool t Hk; simpl.
  - split; [done |]. split; [| constructor].
    intros x Hx. by apply elem_of_nil in Hx.
  - pose proof (Z.mod_pos_bound (next t).1 (Z.of_nat (length pool))).
    set (j := Z.to_nat ((next t).1 `mod` Z.of_nat (length pool))).
    destruct (lookup_lt_is_Some_2 pool j) as [a Ha]; [unfold j; lia |].
    rewrite Ha. simpl.
    destruct (IH (delete j pool) (next t).2) as (Hlen & Hin & Hnd).
    { rewrite length_delete by eauto. lia. }
    split; [by rewrite Hlen |]. split.
    + intros x Hx. apply elem_of_cons in Hx as [-> | Hx].
      * by eapply list_elem_of_lookup_2.
      * eapply list_elem_of_delete_inv. by apply Hin.
    + intros Hpool. apply NoDup_cons. split.
      * intros Hx. apply Hin in Hx.
        by apply (delete_lookup_not_in A pool j a).
      * apply Hnd. eapply sublist_NoDup; [done | apply sublist_delete].
Qed.

End TapeLaws.

#[export] Instance tape_source : Source Tape.tape := {|
  randint := Tape.tape_randint;
  uniform := Tape.tape_uniform;
  choice := Tape.tape_choice;
  choices := Tape.tape_choices;
  sample := Tape.tape_sample;
  uuid4 := Tape.tape_uuid4;
  now := Tape.tape_now;
  randint_range := TapeLaws.tape_randint_range;
  uniform_range := TapeLaws.tape_uniform_range;
  choice_elem := TapeLaws.tape_choice_elem;
  choices_spec := λ A population weights k t Hne _ _,
    TapeLaws.tape_choices_spec A population weights k t Hne;
  sample_spec := TapeLaws.tape_sample_spec
|}.

(** ** Total-correctness reasoning for the monad *)

(** [wp m g Q]: run from [g], [m] returns, and its result satisfies [Q]. *)
Definition wp {G A} (m : M G A) (g : G) (Q : A → G → Prop) : Prop :=
  ∃ a g', m g = Some (a, g') ∧ Q a g'.

Section Rules.
Context {G : Type} `{Source G}.

Lemma wp_ret A (a : A) (g : G) Q : Q a g → wp (ret a) g Q.
Proof. intros HQ. by exists a, g. Qed.

Lemma wp_bind A B (m : M G A) (k : A → M G B) g Q :
  wp m g (λ a g', wp (k a) g' Q) → wp (bind m k) g Q.
Proof.
  intros (a & g' & Hm & b & g'' & Hk & HQ).
  exists b, g''. unfold bind. by rewrite Hm.
Qed.

Lemma wp_mono A (m : M G A) g (P Q : A → G → Prop) :
  wp m g P → (∀ a g', P a g' → Q a g') → wp m g Q.
Proof. intros (a & g' & Hm & HP) HPQ. exists a, g'. auto. Qed.

(** The sequencing rule, with an intermediate assertion. *)
Lemma wp_seq A B (P : A → G → Prop) (m : M G A) (k : A → M G B) g Q :
  wp m g P → (∀ a g', P a g' → wp (k a) g' Q) → wp (bind m k) g Q.
Proof. intros Hm Hk. apply wp_bind. eapply wp_mono; eauto. Qed.

Lemma wp_elim A (m : M G A) g Q a g' :
  wp m g Q → m g = Some (a, g') → Q a g'.
Proof. intros (a' & g'' & Hm & HQ) Heq. congruence. Qed.

Lemma wp_try A (o : option A) a (g : G) Q :
  o = Some a → Q a g → wp (try o) g Q.
Proof. intros -> HQ. by exists a, g. Qed.

Lemma wp_draw A (f : G → A * G) g Q :
  Q (f g).1 (f g).2 → wp (draw f) g Q.
Proof.
  intros HQ. exists (f g).1, (f g).2. split; [| done].
  unfold draw. by destruct (f g).
Qed.

Lemma wp_randint a b (g : G) Q :
  (a ≤ b)%Z → (∀ x g', (a ≤ x ≤ b)%Z → Q x g') → wp (draw (randint a b)) g Q.
Proof. intros Hab HQ. apply wp_draw, HQ. by apply randint_range. Qed.

Lemma wp_uniform a b (g : G) Q :
  (a <= b)%Q → (∀ x g', (a <= x)%Q ∧ (x <= b)%Q → Q x g') →
  wp (draw (uniform a b)) g Q.
Proof. intros Hab HQ. apply wp_draw, HQ. by apply uniform_range. Qed.

Lemma wp_is_profile (base_info : dict) p name (g : G) Q :
  base_info !! "profile_type" = Some p →
  Q (str_eq p name) g → wp (is_profile base_info name) g Q.
Proof.
  intros Hp HQ. unfold is_profile, getitem.
  apply wp_bind. eapply wp_try; [done |]. by apply wp_ret.
Qed.

(** A loop over [range(n)] maintains an invariant indexed by the number
    of completed iterations. *)
Lemma wp_foldM_from St (f : St → Z → M G St) (I : nat → St → Prop) n :
  ∀ a s g,
    I a s →
    (∀ i s g, a ≤ i < a + n → I i s →
              wp (f s (Z.of_nat i)) g (λ s' _, I (S i) s')) →
    wp (foldM f s (Z.of_nat <$> seq a n)) g (λ s' _, I (a + n) s').
Proof.
  induction n as [| n IH]; intros a s g Hs Hstep; simpl.
  - apply wp_ret. by rewrite Nat.add_0_r.
  - apply wp_seq with (P := λ s' _, I (S a) s').
    + apply Hstep; [lia | done].
    + intros s' g' Hs'. replace (a + S n) with (S a + n) by lia.
      apply IH; [done |]. intros i s0 g0 Hi. apply Hstep. lia.
Qed.

Lemma wp_foldM_range St (f : St → Z → M G St) (I : nat → St → Prop) n s g :
  I 0 s →
  (∀ i s g, i < n → I i s → wp (f s (Z.of_nat i)) g (λ s' _, I (S i) s')) →
  wp (foldM f s (range n)) g (λ s' _, I n s').
Proof.
  intros H0 Hstep. apply (wp_foldM_from St f I n 0 s g H0).
  intros i s0 g0 Hi. apply Hstep. lia.
Qed.

End Rules.

(** ** One patient's series *)

Section Series.
Context {G : Type} `{Source G}.
Variables (base_info : dict) (profile : value) (discharge_date : Z).
Variables (seed : Q) (wg_start na_start : Z).
Hypothesis Hprofile : base_info !! "profile_type" = Some profile.

(** On day [d] the weight-gain branch (line 92) is taken. *)
Definition gain_active (d : nat) : bool :=
  str_eq profile "high_risk_weight_gain" && (wg_start <=? Z.of_nat d)%Z.

(** On day [d] the non-adherence branch (line 98) is taken. *)
Definition meds_missed (d : nat) : bool :=
  str_eq profile "non_adherent" && (na_start <=? Z.of_nat d)%Z.

(** How one day changes the running weight. *)
Definition weight_step (prev w : Q) (active : bool) : Prop :=
  ∃ jitter, (-0.5 <= jitter)%Q ∧ (jitter <= 0.5)%Q ∧
    if active
    then ∃ gain, (1 <= gain)%Q ∧ (gain <= 2.5)%Q ∧
                 w = (prev + jitter + gain)%Q
    else w = (prev + jitter)%Q.

(** The running weight before day [d]: the seed, or the weight of the
    day before. *)
Definition prev_weight (ws : list Q) (d : nat) : Q :=
  match d with
  | O => seed
  | S d' => default seed (ws !! d')
  end.

Definition gain_value (ws : list Q) (d : nat) : value :=
  if d <? 3 then VInt 0
  else VFloat (round_ndigits
                 (default 0%Q (ws !! d) - default 0%Q (ws !! (d - 3))) 2).

Definition missed_value (adh : list bool) (d : nat) : Z :=
  if negb (default true (adh !! d)) && (1 <=? d)
     && negb (default true (adh !! (d - 1)))
  then 2%Z else 0%Z.

(** What the record of day [d] holds, in terms of the loop's lists. *)
Definition day_ok (rs : list dict) (ws : list Q) (adh : list bool)
    (d : nat) : Prop :=
  ∃ r w a,
    rs !! d = Some r ∧ ws !! d = Some w ∧ adh !! d = Some a ∧
    weight_step (prev_weight ws d) w (gain_active d) ∧
    a = negb (meds_missed d) ∧
    r !! "weight" = Some (VFloat (round_ndigits w 2)) ∧
    r !! "medication_adherence" = Some (VBool a) ∧
    r !! "days_since_discharge" = Some (VInt (Z.of_nat d)) ∧
    r !! "weight_gain_over_3_days" = Some (gain_value ws d) ∧
    r !! "consecutive_missed_meds" = Some (VInt (missed_value adh d)) ∧
    (∃ s, r !! "symptom_swelling" = Some (VInt s) ∧
          if gain_active d then (4 ≤ s ≤ 8)%Z else (1 ≤ s ≤ 3)%Z) ∧
    ∀ k, k ∉ DAILY_KEYS → r !! k = base_info !! k.

(** The loop invariant after [n] iterations. *)
Definition series_inv (n : nat) (st : series_state) : Prop :=
  length (records st) = n ∧
  length (daily_weights st) = n ∧
  length (daily_adherence st) = n ∧
  current_weight st = prev_weight (daily_weights st) n ∧
  ∀ d, d < n →
       day_ok (records st) (daily_weights st) (daily_adherence st) d.

Lemma prev_weight_app ws l d :
  d ≤ length ws → prev_weight (ws ++ l) d = prev_weight ws d.
Proof.
  destruct d as [| d]; [done |]. intros Hd. simpl.
  by rewrite lookup_app_l by lia.
Qed.

Lemma gain_value_app ws l d :
  d < length ws → gain_value (ws ++ l) d = gain_value ws d.
Proof.
  intros Hd. unfold gain_value. by rewrite !lookup_app_l by lia.
Qed.

Lemma missed_value_app adh l d :
  d < length adh → missed_value (adh ++ l) d = missed_value adh d.
Proof.
  intros Hd. unfold missed_value. by rewrite !lookup_app_l by lia.
Qed.

Lemma day_ok_app rs ws adh rs' ws' adh' d :
  d < length rs → d < length ws → d < length adh →
  day_ok rs ws adh d → day_ok (rs ++ rs') (ws ++ ws') (adh ++ adh') d.
Proof.
  intros Hr Hw Ha (r & w & a & H1 & H2 & H3 & Hrest).
  exists r, w, a.
  rewrite !lookup_app_l by lia.
  rewrite prev_weight_app by lia.
  rewrite gain_value_app by lia.
  rewrite missed_value_app by lia.
  done.
Qed.

Lemma py_index_nat {A} (l : list A) (i : nat) :
  py_index l (Z.of_nat i) = l !! i.
Proof.
  unfold py_index. destruct (Z.leb_spec 0 (Z.of_nat i)); [| lia].
  by rewrite Nat2Z.id.
Qed.

Lemma days_since_discharge_eq (d : Z) :
  td_days (discharge_date + timedelta_days d - discharge_date) = d.
Proof.
  unfold td_days, timedelta_days, MICROS_PER_DAY.
  replace (discharge_date + d * 86400000000 - discharge_date)%Z
    with (d * 86400000000)%Z by lia.
  by apply Z.div_mul.
Qed.

(** The symptom dictionary has the three symptom keys only, and its
    swelling score is in the range of the branch taken. *)
Definition symptoms_ok (d : nat) (sy : dict) : Prop :=
  (∀ k, k ≠ "symptom_shortness_of_breath" → k ≠ "symptom_fatigue" →
        k ≠ "symptom_swelling" → sy !! k = None) ∧
  ∃ s, sy !! "symptom_swelling" = Some (VInt s) ∧
       if gain_active d then (4 ≤ s ≤ 8)%Z else (1 ≤ s ≤ 3)%Z.

Ltac dict_lookup :=
  repeat first
    [ rewrite lookup_insert_eq
    | rewrite lookup_insert_ne by (discriminate || congruence)
    | rewrite lookup_empty ].

Ltac wp_step :=
  lazymatch goal with
  | |- wp (bind _ _) _ _ => apply wp_bind
  | |- wp (draw (randint _ _)) _ _ =>
      apply wp_randint; [lia | intros ? ? ?; cbv beta]
  | |- wp (draw (uniform _ _)) _ _ =>
      apply wp_uniform; [lra | intros ? ? [? ?]; cbv beta]
  | |- wp (is_profile _ _) _ _ =>
      eapply wp_is_profile; [exact Hprofile | cbv beta]
  | |- wp (ret _) _ _ => apply wp_ret
  end.

Lemma symptoms_ok_fatigue d sy v :
  symptoms_ok d sy → symptoms_ok d (<["symptom_fatigue" := v]> sy).
Proof.
  intros [Hdom (s & Hs & Hrange)]. split.
  - intros k ? ? ?. rewrite lookup_insert_ne by done. by apply Hdom.
  - exists s. by rewrite lookup_insert_ne by discriminate.
Qed.

Lemma lookup_snoc_last {A} (l : list A) x n :
  length l = n → (l ++ [x]) !! n = Some x.
Proof. intros <-. by apply list_lookup_middle. Qed.

Lemma simulate_day_spec st n g :
  series_inv n st →
  wp (simulate_day base_info discharge_date wg_start na_start st (Z.of_nat n))
     g (λ st' _, series_inv (S n) st').
Proof.
  intros (Hrs & Hws & Hadh & Hcw & Hdays).
  unfold simulate_day. cbv zeta.
  do 2 wp_step. rename x into jitter.
  do 2 wp_step. do 2 wp_step. do 2 wp_step. do 2 wp_step.
  (* the weight-gain branch *)
  apply wp_seq with
    (P := λ ws _, weight_step (current_weight st) ws.1 (gain_active n)
                  ∧ symptoms_ok n ws.2).
  { unfold symptoms_ok, weight_step, gain_active.
    destruct (str_eq profile "high_risk_weight_gain"
              && (wg_start <=? Z.of_nat n)%Z).
    - do 2 wp_step. do 2 wp_step. do 2 wp_step. wp_step. simpl. split.
      + exists jitter. do 2 (split; [done |]). exists x2.
        repeat split; first [done | lra].
      + split; [intros k ? ? ?; by dict_lookup |].
        exists x4. by dict_lookup.
    - wp_step. simpl. split.
      + exists jitter. by repeat split.
      + split; [intros k ? ? ?; by dict_lookup |].
        exists x1. by dict_lookup. }
  intros [w sy] g3 [Hstep Hsy]. simpl.
  do 2 wp_step.
  (* the non-adherence branch *)
  apply wp_seq with
    (P := λ ms _, ms.1 = negb (meds_missed n) ∧ symptoms_ok n ms.2).
  { unfold meds_missed.
    destruct (str_eq profile "non_adherent" && (na_start <=? Z.of_nat n)%Z).
    - do 3 wp_step. simpl. split; [done |]. by apply symptoms_ok_fatigue.
    - wp_step. by simpl. }
  intros [a sy'] g4 [Ha Hsy']. simpl in Ha |- *.
  (* the two rolling metrics *)
  apply wp_seq with
    (P := λ v _, py_round v 2
                 = Some (gain_value (daily_weights st ++ [w]) n)).
  { unfold gain_value. destruct (Z.leb_spec 3 (Z.of_nat n)).
    - destruct (Nat.ltb_spec n 3); [lia |].
      destruct (lookup_lt_is_Some_2 (daily_weights st) (n - 3))
        as [w3 Hw3]; [lia |].
      wp_step. eapply wp_try.
      { replace (Z.of_nat n - 3)%Z with (Z.of_nat (n - 3)) by lia.
        rewrite py_index_nat, lookup_app_l by lia. exact Hw3. }
      wp_step. simpl.
      by rewrite lookup_snoc_last, lookup_app_l, Hw3 by (done || lia).
    - destruct (Nat.ltb_spec n 3); [| lia]. by wp_step. }
  intros gain g5 Hgain. cbv beta.
  apply wp_seq with
    (P := λ c _, c = missed_value (daily_adherence st ++ [a]) n).
  { unfold missed_value. rewrite lookup_snoc_last by done.
    destruct (Z.leb_spec 1 (Z.of_nat n)), (Nat.leb_spec 1 n); try lia;
      destruct a; simpl; try by wp_step.
    destruct (lookup_lt_is_Some_2 (daily_adherence st) (n - 1))
      as [y Hy]; [lia |].
    wp_step. eapply wp_try.
    { replace (Z.of_nat n - 1)%Z with (Z.of_nat (n - 1)) by lia.
      rewrite py_index_nat, lookup_app_l by lia. exact Hy. }
    wp_step. by rewrite lookup_app_l, Hy by lia. }
  intros missed g6 ->. cbv beta.
  do 2 wp_step. do 2 wp_step. do 2 wp_step. do 2 wp_step.
  wp_step. eapply wp_try; [exact Hgain |]. wp_step.
  (* the invariant after the append *)
  unfold series_inv. simpl. rewrite !length_app. simpl.
  split; [lia |]. split; [lia |]. split; [lia |].
  split; [by rewrite lookup_app_r, Hws, Nat.sub_diag by lia |].
  intros d Hd. destruct (decide (d = n)) as [-> | Hne].
  2: { apply day_ok_app; try lia. apply Hdays. lia. }
  eexists _, w, a.
  rewrite !lookup_snoc_last by done.
  do 3 (split; [done |]).
  rewrite prev_weight_app, <- Hcw by lia.
  split; [done |]. split; [done |].
  destruct Hsy' as [Hdom (s & Hs & Hrange)].
  unfold dict_update.
  assert (Hfield : ∀ k v fields rest,
             k ≠ "symptom_shortness_of_breath" → k ≠ "symptom_fatigue" →
             k ≠ "symptom_swelling" →
             fields !! k = Some v →
             (sy' ∪ (fields ∪ rest)) !! k = Some v).
  { intros k v fields rest ? ? ? Hk.
    rewrite lookup_union_r by (by apply Hdom).
    by apply lookup_union_Some_l. }
  split; [apply Hfield; first [discriminate | by dict_lookup] |].
  split; [apply Hfield; first [discriminate | by dict_lookup] |].
  split.
  { apply Hfield; try discriminate. dict_lookup.
    by rewrite days_since_discharge_eq. }
  split; [apply Hfield; first [discriminate | by dict_lookup] |].
  split; [apply Hfield; first [discriminate | by dict_lookup] |].
  split.
  { exists s. split; [| done]. by apply lookup_union_Some_l. }
  intros k Hk. unfold DAILY_KEYS in Hk.
  repeat (apply not_elem_of_cons in Hk as [? Hk]).
  rewrite lookup_union_r by (by apply Hdom).
  rewrite lookup_union_r by (by dict_lookup).
  by rewrite lookup_insert_ne.
Qed.

Lemma series_loop_spec g :
  wp (series_loop base_info (seed, discharge_date, wg_start, na_start)) g
     (λ st _, series_inv DAYS_OF_DATA st).
Proof.
  unfold series_loop. apply wp_foldM_range.
  - unfold series_inv, initial_state. simpl.
    repeat split; try done. intros d Hd. lia.
  - intros i st g0 _ Hinv. by apply simulate_day_spec.
Qed.

End Series.

(** The trigger day drawn for profile [name]: in 5..20 when the patient has
    that profile, the sentinel -1 otherwise. *)
Definition start_ok (profile : value) (name : string) (start : Z) : Prop :=
  if str_eq profile name then (5 ≤ start ≤ 20)%Z else start = (-1)%Z.

(** [generate_daily_time_series base_info], run from [g], draws [seed] and
    the trigger days [wg_start] and [na_start], and ends its loop in state
    [st], whose records it returns. *)
Definition series_run {G} `{Source G} (base_info : dict) (g : G)
    (seed : Q) (wg_start na_start : Z) (st : series_state) : Prop :=
  ∃ dd g1 g2,
    series_setup base_info g = Some ((seed, dd, wg_start, na_start), g1) ∧
    series_loop base_info (seed, dd, wg_start, na_start) g1 = Some (st, g2) ∧
    generate_daily_time_series base_info g = Some (records st, g2).

Section SeriesRun.
Context {G : Type} `{Source G}.

Lemma wp_start_day (base_info : dict) profile name (g : G) Q :
  base_info !! "profile_type" = Some profile →
  (∀ s g', start_ok profile name s → Q s g') →
  wp (start_day base_info name) g Q.
Proof.
  intros Hp HQ. unfold start_day. apply wp_bind.
  eapply wp_is_profile; [done |]. unfold start_ok in HQ.
  destruct (str_eq profile name).
  - apply wp_randint; [lia |]. auto.
  - apply wp_ret. auto.
Qed.

(** Every call on a base record with a profile and an ISO discharge date
    returns, and its loop ends in a state satisfying the invariant. *)
Lemma series_spec (base_info : dict) profile dd (g : G) :
  base_info !! "profile_type" = Some profile →
  base_info !! "discharge_date" = Some (VIso dd) →
  ∃ seed wg_start na_start st,
    series_run base_info g seed wg_start na_start st ∧
    (150 <= seed)%Q ∧ (seed <= 250)%Q ∧
    start_ok profile "high_risk_weight_gain" wg_start ∧
    start_ok profile "non_adherent" na_start ∧
    series_inv base_info profile seed wg_start na_start DAYS_OF_DATA st.
Proof.
  intros Hp Hdd.
  assert (Hsetup : wp (series_setup base_info) g (λ su _,
            ∃ seed wg na, su = (seed, dd, wg, na) ∧
              (150 <= seed)%Q ∧ (seed <= 250)%Q ∧
              start_ok profile "high_risk_weight_gain" wg ∧
              start_ok profile "non_adherent" na)).
  { unfold series_setup, getitem.
    apply wp_bind, wp_uniform; [lra |]. intros seed g1 [Hlo Hhi].
    apply wp_bind. eapply wp_try; [exact Hdd |].
    apply wp_bind. eapply wp_try; [done |].
    apply wp_bind. eapply wp_start_day; [done |]. intros wg g2 Hwg.
    apply wp_bind. eapply wp_start_day; [done |]. intros na g3 Hna.
    apply wp_ret. exists seed, wg, na. repeat split; first [done | lra]. }
  destruct Hsetup as (su & g1 & Hrun1 & seed & wg & na & -> & ? & ? & ? & ?).
  destruct (series_loop_spec base_info profile dd seed wg na Hp g1)
    as (st & g2 & Hrun2 & Hinv).
  exists seed, wg, na, st.
  split; [| split; [lra |]; split; [lra |]; done].
  exists dd, g1, g2. repeat split; try done.
  unfold generate_daily_time_series, bind. by rewrite Hrun1, Hrun2.
Qed.

End SeriesRun.

(** ** Claims about one patient's series *)

Lemma str_eq_true (v : value) (name : string) :
  str_eq v name = true ↔ v = VStr name.
Proof.
  destruct v; simpl; try (split; [discriminate | by intros [=]]).
  rewrite String.eqb_eq. split; [by intros -> | by intros [=]].
Qed.

Lemma str_eq_false (v : value) (name : string) :
  str_eq v name = false ↔ v ≠ VStr name.
Proof.
  split.
  - intros Hf Heq. apply str_eq_true in Heq. congruence.
  - intros Hne. destruct (str_eq v name) eqn:E; [| done].
    by apply str_eq_true in E.
Qed.

Section SeriesClaims.
Context {G : Type} `{Source G}.
Implicit Types (base_info : dict) (g : G) (st : series_state).

Lemma series_inv_lookup base_info profile seed wg na n st d r :
  series_inv base_info profile seed wg na n st →
  records st !! d = Some r →
  d < n ∧
  day_ok base_info profile seed wg na
         (records st) (daily_weights st) (daily_adherence st) d.
Proof.
  intros (Hrs & _ & _ & _ & Hdays) Hr.
  apply lookup_lt_Some in Hr. split; [lia |]. apply Hdays. lia.
Qed.

(** C2: the series has 30 records, and in each of them
    [consecutive_missed_meds] is 2 exactly when
    [d >= 1] and [medication_adherence] is false both in the record of day
    [d] and in the record of day [d - 1]; it is 0 in every other case. *)
Theorem consecutive_missed_meds_two_or_zero base_info profile dd g :
  base_info !! "profile_type" = Some profile →
  base_info !! "discharge_date" = Some (VIso dd) →
  ∃ seed wg na st,
    series_run base_info g seed wg na st ∧
    length (records st) = DAYS_OF_DATA ∧
    ∀ d r, records st !! d = Some r →
      ∃ today,
        r !! "medication_adherence" = Some (VBool today) ∧
        (r !! "consecutive_missed_meds" = Some (VInt 2) ∨
         r !! "consecutive_missed_meds" = Some (VInt 0)) ∧
        (r !! "consecutive_missed_meds" = Some (VInt 2) ↔
           1 ≤ d ∧ today = false ∧
           ∃ r', records st !! (d - 1) = Some r' ∧
                 r' !! "medication_adherence" = Some (VBool false)).
Proof.
  intros Hp Hdd.
  destruct (series_spec base_info profile dd g Hp Hdd)
    as (seed & wg & na & st & Hrun & _ & _ & _ & _ & Hinv).
  exists seed, wg, na, st. split; [done |].
  split; [by destruct Hinv |]. intros d r Hr.
  destruct (series_inv_lookup _ _ _ _ _ _ _ _ _ Hinv Hr) as [Hd Hday].
  destruct Hday as (r0 & w & a & Hr0 & Hw & Ha & _ & _ & _ & Hadh & _
                    & _ & Hmissed & _).
  assert (r0 = r) as -> by congruence.
  exists a. split; [done |]. rewrite Hmissed.
  unfold missed_value. rewrite Ha.
  destruct (Nat.leb_spec 1 d) as [Hge | Hlt]; destruct a; simpl.
  1, 3: split; [by right |]; split; [discriminate |]; by intros (_ & ? & _).
  2: { split; [by right |]. split; [discriminate |]. intros (? & _). lia. }
  destruct Hinv as (_ & _ & _ & _ & Hdays).
  destruct (Hdays (d - 1)) as (r' & w' & a' & Hr' & _ & Ha' & _ & _ & _
                               & Hadh' & _); [lia |].
  rewrite Ha'. simpl. destruct a'; simpl.
  - split; [by right |]. split; [discriminate |].
    intros (_ & _ & r2 & Hr2 & Hf). congruence.
  - split; [by left |]. split; [| done]. intros _.
    split; [done |]. split; [done |]. by exists r'.
Qed.

(** C3: a non-adherent patient has a trigger day in 5..20 from which
    [medication_adherence] is false in every record, through day 29, and
    before which it is true in every record. *)
Theorem non_adherent_from_trigger_day base_info dd g :
  base_info !! "profile_type" = Some (VStr "non_adherent") →
  base_info !! "discharge_date" = Some (VIso dd) →
  ∃ seed wg na st,
    series_run base_info g seed wg na st ∧
    length (records st) = DAYS_OF_DATA ∧
    (5 ≤ na ≤ 20)%Z ∧
    ∀ d r, records st !! d = Some r →
      ((na ≤ Z.of_nat d)%Z →
         r !! "medication_adherence" = Some (VBool false)) ∧
      ((Z.of_nat d < na)%Z →
         r !! "medication_adherence" = Some (VBool true)).
Proof.
  intros Hp Hdd.
  destruct (series_spec base_info _ dd g Hp Hdd)
    as (seed & wg & na & st & Hrun & _ & _ & _ & Hna & Hinv).
  exists seed, wg, na, st. split; [done |].
  split; [by destruct Hinv |]. split; [done |]. intros d r Hr.
  destruct (series_inv_lookup _ _ _ _ _ _ _ _ _ Hinv Hr) as [Hd Hday].
  destruct Hday as (r0 & w & a & Hr0 & _ & _ & _ & -> & _ & Hadh & _).
  assert (r0 = r) as -> by congruence.
  rewrite Hadh. unfold meds_missed. simpl.
  destruct (Z.leb_spec na (Z.of_nat d)); simpl; split; (done || lia).
Qed.

(** C4: a high-risk-weight-gain patient has a trigger day in 5..20 from
    which [symptom_swelling] lies in 4..8 in every record, and before
    which it lies in 1..3. *)
Theorem weight_gain_swelling_from_trigger_day base_info dd g :
  base_info !! "profile_type" = Some (VStr "high_risk_weight_gain") →
  base_info !! "discharge_date" = Some (VIso dd) →
  ∃ seed wg na st,
    series_run base_info g seed wg na st ∧
    length (records st) = DAYS_OF_DATA ∧
    (5 ≤ wg ≤ 20)%Z ∧
    ∀ d r, records st !! d = Some r →
      ∃ s, r !! "symptom_swelling" = Some (VInt s) ∧
           ((wg ≤ Z.of_nat d)%Z → (4 ≤ s ≤ 8)%Z) ∧
           ((Z.of_nat d < wg)%Z → (1 ≤ s ≤ 3)%Z).
Proof.
  intros Hp Hdd.
  destruct (series_spec base_info _ dd g Hp Hdd)
    as (seed & wg & na & st & Hrun & _ & _ & Hwg & _ & Hinv).
  exists seed, wg, na, st. split; [done |].
  split; [by destruct Hinv |]. split; [done |]. intros d r Hr.
  destruct (series_inv_lookup _ _ _ _ _ _ _ _ _ Hinv Hr) as [Hd Hday].
  destruct Hday as (r0 & w & a & Hr0 & _ & _ & _ & _ & _ & _ & _ & _ & _
                    & (s & Hs & Hrange) & _).
  assert (r0 = r) as -> by congruence.
  exists s. split; [done |]. unfold gain_active in Hrange. simpl in Hrange.
  destruct (Z.leb_spec wg (Z.of_nat d)); split; (done || lia).
Qed.

(** C10: for a patient whose profile is not [non_adherent],
    [medication_adherence] is true and [consecutive_missed_meds] is 0 in
    each of the 30 records. *)
Theorem adherent_profiles_never_miss base_info profile dd g :
  profile ≠ VStr "non_adherent" →
  base_info !! "profile_type" = Some profile →
  base_info !! "discharge_date" = Some (VIso dd) →
  ∃ seed wg na st,
    series_run base_info g seed wg na st ∧
    length (records st) = DAYS_OF_DATA ∧
    ∀ d r, records st !! d = Some r →
      r !! "medication_adherence" = Some (VBool true) ∧
      r !! "consecutive_missed_meds" = Some (VInt 0).
Proof.
  intros Hne Hp Hdd. apply str_eq_false in Hne.
  destruct (series_spec base_info _ dd g Hp Hdd)
    as (seed & wg & na & st & Hrun & _ & _ & _ & _ & Hinv).
  exists seed, wg, na, st. split; [done |].
  split; [by destruct Hinv |]. intros d r Hr.
  destruct (series_inv_lookup _ _ _ _ _ _ _ _ _ Hinv Hr) as [Hd Hday].
  destruct Hday as (r0 & w & a & Hr0 & _ & Ha & _ & -> & _ & Hadh & _ & _
                    & Hmissed & _).
  assert (r0 = r) as -> by congruence.
  rewrite Hadh, Hmissed. unfold missed_value, meds_missed in *.
  rewrite Ha, Hne. by simpl.
Qed.

End SeriesClaims.

(** ** Rounding and the weight series *)

Lemma round_half_even_comp (x y : Q) :
  (x == y)%Q → round_half_even x = round_half_even y.
Proof.
  intros E. unfold round_half_even. rewrite (Qfloor_comp x y E).
  assert ((x - inject_Z (Qfloor y) ?= 1 # 2)%Q
          = (y - inject_Z (Qfloor y) ?= 1 # 2)%Q) as ->; [| done].
  apply Qcompare_comp; [| reflexivity]. by rewrite E.
Qed.

Lemma round_half_even_near (q : Q) :
  (inject_Z (round_half_even q) - (1 # 2) <= q)%Q ∧
  (q <= inject_Z (round_half_even q) + (1 # 2))%Q.
Proof.
  unfold round_half_even.
  pose proof (Qfloor_le q) as Hlo. pose proof (Qlt_floor q) as Hhi.
  rewrite inject_Z_plus in Hhi. change (inject_Z 1) with 1%Q in Hhi.
  destruct (Qcompare_spec (q - inject_Z (Qfloor q)) (1 # 2)) as [He | Hl | Hg];
    [destruct (Z.even (Qfloor q)) | |];
    rewrite ?inject_Z_plus; change (inject_Z 1) with 1%Q; split; lra.
Qed.

(** Rounding a difference and subtracting two roundings differ by at most
    one unit in the last place. *)
Lemma round_difference_units (x y : Q) :
  (-1 ≤ round_half_even (x - y) - (round_half_even x - round_half_even y) ≤ 1)%Z.
Proof.
  destruct (round_half_even_near x) as [Ha1 Ha2].
  destruct (round_half_even_near y) as [Hb1 Hb2].
  destruct (round_half_even_near (x - y)) as [Hc1 Hc2].
  revert Ha1 Ha2 Hb1 Hb2 Hc1 Hc2.
  generalize (round_half_even x) (round_half_even y) (round_half_even (x - y)).
  intros a b c Ha1 Ha2 Hb1 Hb2 Hc1 Hc2.
  assert (H1 : (inject_Z (c - (a - b)) <= 3 # 2)%Q).
  { unfold Z.sub. repeat (rewrite inject_Z_plus || rewrite inject_Z_opp). lra. }
  assert (H2 : (- (3 # 2) <= inject_Z (c - (a - b)))%Q).
  { unfold Z.sub. repeat (rewrite inject_Z_plus || rewrite inject_Z_opp). lra. }
  unfold Qle in H1, H2. simpl in H1, H2. lia.
Qed.

Lemma round_ndigits_difference (x y : Q) :
  (- 0.01 <= round_ndigits (x - y) 2 - (round_ndigits x 2 - round_ndigits y 2))%Q
  ∧ (round_ndigits (x - y) 2 - (round_ndigits x 2 - round_ndigits y 2) <= 0.01)%Q.
Proof.
  unfold round_ndigits.
  change (10 ^ Z.of_nat 2)%Z with 100%Z.
  change (10 ^ Pos.of_nat 2)%positive with 100%positive.
  pose proof (round_difference_units (x * inject_Z 100) (y * inject_Z 100))
    as Hu.
  assert (Heq : round_half_even ((x - y) * inject_Z 100)
                = round_half_even (x * inject_Z 100 - y * inject_Z 100)).
  { apply round_half_even_comp. ring. }
  rewrite Heq.
  set (a := round_half_even (x * inject_Z 100)) in *.
  set (b := round_half_even (y * inject_Z 100)) in *.
  set (c := round_half_even (x * inject_Z 100 - y * inject_Z 100)) in *.
  unfold Qle, Qminus, Qplus, Qopp. simpl. lia.
Qed.

Section WeightClaims.
Context {G : Type} `{Source G}.
Implicit Types (base_info : dict) (g : G) (st : series_state).

Lemma weight_step_bounds seed profile wg ws d w :
  weight_step (prev_weight seed ws d) w (gain_active profile wg d) →
  (gain_active profile wg d = false →
     (-0.5 <= w - prev_weight seed ws d)%Q ∧
     (w - prev_weight seed ws d <= 0.5)%Q) ∧
  (gain_active profile wg d = true →
     (0.5 <= w - prev_weight seed ws d)%Q ∧
     (w - prev_weight seed ws d <= 3.0)%Q).
Proof.
  intros (jitter & Hlo & Hhi & Hw).
  destruct (gain_active profile wg d).
  - destruct Hw as (gain & Hg1 & Hg2 & ->).
    split; [discriminate |]. intros _. split; lra.
  - subst w. split; [| discriminate]. intros _. split; lra.
Qed.

(** C8: the unrounded weight series is a fold from a seed in [150, 250]:
    each day adds a jitter in [-0.5, 0.5] to the running weight and, exactly
    when the weight-gain branch is taken, an extra gain in [1.0, 2.5]; so
    the day-to-day change lies in [-0.5, 0.5] without the trigger and in
    [0.5, 3.0] with it.  The record's [weight] is the rounded running
    weight. *)
Theorem weight_series_is_a_fold base_info profile dd g :
  base_info !! "profile_type" = Some profile →
  base_info !! "discharge_date" = Some (VIso dd) →
  ∃ seed wg na st,
    series_run base_info g seed wg na st ∧
    (150 <= seed)%Q ∧ (seed <= 250)%Q ∧
    length (daily_weights st) = DAYS_OF_DATA ∧
    ∀ d w, daily_weights st !! d = Some w →
      let prev := prev_weight seed (daily_weights st) d in
      let active := gain_active profile wg d in
      (active = true ↔
         profile = VStr "high_risk_weight_gain" ∧ (wg ≤ Z.of_nat d)%Z) ∧
      weight_step prev w active ∧
      (active = false → (-0.5 <= w - prev)%Q ∧ (w - prev <= 0.5)%Q) ∧
      (active = true → (0.5 <= w - prev)%Q ∧ (w - prev <= 3.0)%Q) ∧
      ∃ r, records st !! d = Some r ∧
           r !! "weight" = Some (VFloat (round_ndigits w 2)).
Proof.
  intros Hp Hdd.
  destruct (series_spec base_info profile dd g Hp Hdd)
    as (seed & wg & na & st & Hrun & Hlo & Hhi & _ & _ & Hinv).
  exists seed, wg, na, st. do 3 (split; [done |]).
  destruct Hinv as (Hrs & Hws & _ & _ & Hdays). split; [done |].
  intros d w Hw prev active.
  destruct (Hdays d) as (r & w0 & a & Hr & Hw0 & _ & Hstep & _ & Hweight & _).
  { apply lookup_lt_Some in Hw. lia. }
  assert (w0 = w) as -> by congruence.
  split.
  { unfold active, gain_active. rewrite andb_true_iff, str_eq_true.
    by rewrite Z.leb_le. }
  split; [done |].
  destruct (weight_step_bounds _ _ _ _ _ _ Hstep) as [Hoff Hon].
  split; [done |]. split; [done |]. by exists r.
Qed.

(** C1, as the code has it: [weight_gain_over_3_days] is 0 on days 0, 1
    and 2; from day 3 on it is the rounding of the difference of the
    unrounded running weights of day [d] and day [d - 3], whose roundings
    are the two [weight] fields.  It is therefore within 0.01 of the
    difference of the two [weight] fields. *)
Theorem weight_gain_rounds_running_difference base_info profile dd g :
  base_info !! "profile_type" = Some profile →
  base_info !! "discharge_date" = Some (VIso dd) →
  ∃ seed wg na st,
    series_run base_info g seed wg na st ∧
    length (records st) = DAYS_OF_DATA ∧
    ∀ d r, records st !! d = Some r →
      ∃ w, daily_weights st !! d = Some w ∧
        r !! "weight" = Some (VFloat (round_ndigits w 2)) ∧
        (d < 3 → r !! "weight_gain_over_3_days" = Some (VInt 0)) ∧
        (3 ≤ d →
           ∃ r3 w3,
             records st !! (d - 3) = Some r3 ∧
             daily_weights st !! (d - 3) = Some w3 ∧
             r3 !! "weight" = Some (VFloat (round_ndigits w3 2)) ∧
             r !! "weight_gain_over_3_days"
               = Some (VFloat (round_ndigits (w - w3) 2)) ∧
             (- 0.01 <= round_ndigits (w - w3) 2
                        - (round_ndigits w 2 - round_ndigits w3 2))%Q ∧
             (round_ndigits (w - w3) 2
                - (round_ndigits w 2 - round_ndigits w3 2) <= 0.01)%Q).
Proof.
  intros Hp Hdd.
  destruct (series_spec base_info profile dd g Hp Hdd)
    as (seed & wg & na & st & Hrun & _ & _ & _ & _ & Hinv).
  exists seed, wg, na, st. split; [done |].
  split; [by destruct Hinv |]. intros d r Hr.
  destruct (series_inv_lookup _ _ _ _ _ _ _ _ _ Hinv Hr) as [Hd Hday].
  destruct Hday as (r0 & w & a & Hr0 & Hw & _ & _ & _ & Hweight & _ & _
                    & Hgain & _).
  assert (r0 = r) as -> by congruence.
  exists w. do 2 (split; [done |]).
  rewrite Hgain. unfold gain_value. rewrite Hw. simpl.
  destruct (Nat.ltb_spec d 3); split; try lia; [done |]. intros _.
  destruct Hinv as (_ & _ & _ & _ & Hdays).
  destruct (Hdays (d - 3)) as (r3 & w3 & a3 & Hr3 & Hw3 & _ & _ & _
                               & Hweight3 & _); [lia |].
  exists r3, w3. rewrite Hw3. simpl. do 4 (split; [done |]).
  apply round_ndigits_difference.
Qed.

End WeightClaims.

(** ** The whole dataset *)

(** What [generate_base_patient_info] puts in a base record. *)
Definition base_ok (b : dict) : Prop :=
  ∃ patient_id profile age gender comorbidities readmissions today ago,
    b !! "patient_id" = Some (VStr patient_id) ∧
    b !! "profile_type" = Some (VStr profile) ∧
    profile ∈ fst <$> PATIENT_PROFILES ∧
    b !! "age" = Some (VInt age) ∧ (65 ≤ age ≤ 95)%Z ∧
    b !! "gender" = Some (VStr gender) ∧ gender ∈ ["Male"; "Female"] ∧
    b !! "comorbidities" = Some (VList comorbidities) ∧
    length comorbidities ≤ 3 ∧ NoDup comorbidities ∧
    (∀ x, x ∈ comorbidities → x ∈ COMORBIDITIES) ∧
    b !! "previous_readmissions" = Some (VInt readmissions) ∧
    (0 ≤ readmissions ≤ 5)%Z ∧
    b !! "discharge_date" = Some (VIso (today - timedelta_days ago)) ∧
    (30 ≤ ago ≤ 90)%Z.

(** [b] is a base record the generator produced from some state of the
    source, and [rs] is the series it then produced for [b]. *)
Definition generated {G} `{Source G} (b : dict) (rs : list dict) : Prop :=
  ∃ g0 g1 g2 : G,
    generate_base_patient_info g0 = Some (b, g1) ∧
    generate_daily_time_series b g1 = Some (rs, g2).

(** One patient's block of the dataset. *)
Definition patient_ok {G} `{Source G} (block : dict * list dict) : Prop :=
  let (b, rs) := block in
  base_ok b ∧ generated (G := G) b rs ∧
  length rs = DAYS_OF_DATA ∧
  ∀ d r, rs !! d = Some r →
    r !! "days_since_discharge" = Some (VInt (Z.of_nat d)) ∧
    ∀ k, k ∉ DAILY_KEYS → r !! k = b !! k.

Lemma length_concat_uniform {A} (m : nat) (ls : list (list A)) :
  Forall (λ l, length l = m) ls → length (concat ls) = length ls * m.
Proof.
  induction 1 as [| l ls Hl _ IH]; [done |].
  simpl. rewrite length_app, IH, Hl. lia.
Qed.

Lemma lookup_concat_uniform {A} (m : nat) (ls : list (list A)) p l d :
  Forall (λ l, length l = m) ls →
  ls !! p = Some l → d < m → concat ls !! (p * m + d) = l !! d.
Proof.
  intros Hall. revert p. induction Hall as [| l0 ls Hl0 _ IH]; intros p Hp Hd.
  - by rewrite lookup_nil in Hp.
  - destruct p as [| p]; simpl in *.
    + injection Hp as ->. by rewrite lookup_app_l by lia.
    + rewrite lookup_app_r by lia.
      replace (m + p * m + d - length l0) with (p * m + d) by lia.
      by apply IH.
Qed.

Section Dataset.
Context {G : Type} `{Source G}.

Lemma NoDup_COMORBIDITIES : NoDup COMORBIDITIES.
Proof. apply (bool_decide_unpack _). by vm_compute. Qed.

Lemma choose_profile_spec (g : G) :
  wp choose_profile g (λ p _, p ∈ fst <$> PATIENT_PROFILES).
Proof.
  unfold choose_profile. apply wp_bind, wp_draw.
  set (profiles := fst <$> PATIENT_PROFILES).
  set (weights := (λ p : string * (Q * string), p.2.1) <$> PATIENT_PROFILES).
  destruct (choices_spec string profiles weights 1 g) as [Hlen Hin];
    [done | done | by compute |].
  destruct (choices profiles weights 1 g).1 as [| x [| y l]] eqn:E;
    try discriminate.
  eapply wp_try; [done |]. apply Hin. by left.
Qed.

Lemma generate_base_patient_info_spec (g : G) :
  wp generate_base_patient_info g (λ b _, base_ok b).
Proof.
  unfold generate_base_patient_info.
  apply wp_bind, wp_draw.
  apply wp_seq with (P := λ p _, p ∈ fst <$> PATIENT_PROFILES);
    [apply choose_profile_spec |]. intros profile g1 Hprofile.
  apply wp_bind, wp_randint; [lia |]. intros age g2 Hage.
  apply wp_seq with (P := λ s _, s ∈ ["Male"; "Female"]).
  { destruct (choice_elem string ["Male"; "Female"] g2) as (x & Hx & Hin);
      [done |].
    exists x, (choice ["Male"; "Female"] g2).2. split; [| done].
    unfold draw_opt. destruct (choice ["Male"; "Female"] g2) as [o g']. 
    simpl in Hx. by subst o. }
  intros gender g3 Hgender.
  apply wp_bind, wp_randint; [lia |]. intros k g4 Hk.
  apply wp_bind, wp_draw.
  destruct (sample_spec string COMORBIDITIES (Z.to_nat k) g4)
    as (Hlen & Hin & Hnd); [simpl; lia |].
  apply wp_bind, wp_randint; [lia |]. intros readmissions g5 Hre.
  apply wp_bind, wp_draw.
  apply wp_bind, wp_randint; [lia |]. intros ago g6 Hago.
  apply wp_ret.
  eexists _, profile, age, gender, _, readmissions, _, ago.
  repeat (rewrite lookup_insert_eq
          || rewrite lookup_insert_ne by discriminate).
  repeat split; try done; try lia.
  apply Hnd, NoDup_COMORBIDITIES.
Qed.

Lemma base_keys_not_daily k : k ∈ BASE_KEYS → k ∉ DAILY_KEYS.
Proof.
  intros Hk Hd.
  assert (Hall : Forall (λ k, k ∉ DAILY_KEYS) BASE_KEYS)
    by (apply (bool_decide_unpack _); by vm_compute).
  by apply (proj1 (Forall_forall _ _) Hall k).
Qed.

Lemma base_ok_keys b k : base_ok b → k ∈ BASE_KEYS → is_Some (b !! k).
Proof.
  intros (pid & p & age & gender & l & re & today & ago & Hb) Hk.
  unfold BASE_KEYS in Hk. rewrite !elem_of_cons, elem_of_nil in Hk.
  destruct_and!.
  repeat (destruct Hk as [-> | Hk]; [by eexists |]). done.
Qed.

Lemma generate_patient_spec (acc : list dict) (i : Z) (g : G) :
  wp (generate_patient acc i) g
     (λ acc' _, ∃ b rs, acc' = acc ++ rs ∧ patient_ok (G := G) (b, rs)).
Proof.
  destruct (generate_base_patient_info_spec g) as (b & g1 & Hrun1 & Hok).
  pose proof Hok as Hok'.
  destruct Hok' as (pid & p & age & gender & l & re & today & ago & Hb).
  destruct_and!.
  destruct (series_spec b (VStr p) (today - timedelta_days ago) g1)
    as (seed & wg & na & st & (dd & g2 & g3 & _ & _ & Hrun2) & _ & _ & _ & _
        & Hinv); [done | done |].
  exists (acc ++ records st), g3. split.
  { unfold generate_patient, bind. by rewrite Hrun1, Hrun2. }
  exists b, (records st). split; [done |]. split; [done |].
  split; [by exists g, g1, g3 |].
  split; [by destruct Hinv |]. intros d r Hr.
  destruct (series_inv_lookup _ _ _ _ _ _ _ _ _ Hinv Hr) as [Hd Hday].
  destruct Hday as (r0 & w & a & Hr0 & _ & _ & _ & _ & _ & _ & Hdays & _ & _
                    & _ & Hframe).
  assert (r0 = r) as -> by congruence. done.
Qed.

(** The dataset is the concatenation of [NUM_PATIENTS] patient blocks. *)
Lemma dataset_spec (g : G) :
  ∃ out g' blocks,
    generate_all_patient_data g = Some (out, g') ∧
    length blocks = NUM_PATIENTS ∧
    out = concat (snd <$> blocks) ∧
    Forall (patient_ok (G := G)) blocks.
Proof.
  unfold generate_all_patient_data.
  destruct (wp_foldM_range (list dict) generate_patient
    (λ n acc, ∃ blocks, length blocks = n ∧ acc = concat (snd <$> blocks)
                        ∧ Forall (patient_ok (G := G)) blocks)
    NUM_PATIENTS [] g) as (out & g' & Hrun & blocks & Hlen & Hout & Hall).
  - by exists [].
  - intros i acc g0 _ (blocks & Hlen & -> & Hall).
    eapply wp_mono; [apply generate_patient_spec |].
    intros acc' _ (b & rs & -> & Hblock).
    exists (blocks ++ [(b, rs)]). rewrite length_app, fmap_app, concat_app.
    simpl. rewrite app_nil_r. split; [lia |]. split; [done |].
    apply Forall_app. split; [done |]. by apply Forall_singleton.
  - by exists out, g', blocks.
Qed.

Lemma blocks_uniform (blocks : list (dict * list dict)) :
  Forall (patient_ok (G := G)) blocks →
  Forall (λ l, length l = DAYS_OF_DATA) (snd <$> blocks).
Proof.
  intros Hall. apply Forall_fmap. eapply Forall_impl; [exact Hall |].
  intros [b rs] (_ & _ & Hlen & _). done.
Qed.

(** C5: every run returns exactly [NUM_PATIENTS * 30] records, patient by
    patient: the record at position [p * 30 + d] is day [d] of the [p]-th
    generated patient, and its [days_since_discharge] is [d], for [d] from
    0 to 29. *)
Theorem dataset_is_patient_major_day_minor (g : G) :
  ∃ out g' blocks,
    generate_all_patient_data g = Some (out, g') ∧
    length out = NUM_PATIENTS * DAYS_OF_DATA ∧
    length blocks = NUM_PATIENTS ∧
    out = concat (snd <$> blocks) ∧
    ∀ p b rs, blocks !! p = Some (b, rs) →
      generated (G := G) b rs ∧
      length rs = DAYS_OF_DATA ∧
      ∀ d, d < DAYS_OF_DATA →
        ∃ r, rs !! d = Some r ∧
             out !! (p * DAYS_OF_DATA + d) = Some r ∧
             r !! "days_since_discharge" = Some (VInt (Z.of_nat d)).
Proof.
  destruct (dataset_spec g) as (out & g' & blocks & Hrun & Hlen & Hout & Hall).
  exists out, g', blocks. split; [done |].
  pose proof (blocks_uniform blocks Hall) as Huni.
  split.
  { rewrite Hout, (length_concat_uniform DAYS_OF_DATA) by done.
    by rewrite length_fmap, Hlen. }
  do 2 (split; [done |]). intros p b rs Hp.
  pose proof (proj1 (Forall_lookup _ _) Hall p (b, rs) Hp)
    as (_ & Hgen & Hrs & Hdays).
  do 2 (split; [done |]). intros d Hd.
  destruct (lookup_lt_is_Some_2 rs d) as [r Hr]; [lia |].
  exists r. split; [done |]. split; [| by apply Hdays].
  rewrite Hout, (lookup_concat_uniform DAYS_OF_DATA _ p rs d); try done.
  by rewrite list_lookup_fmap, Hp.
Qed.

(** C6: each of a generated patient's 30 records carries every base field
    with the value it has in the patient's base record. *)
Theorem daily_records_keep_base_fields (g : G) :
  ∃ out g' blocks,
    generate_all_patient_data g = Some (out, g') ∧
    length blocks = NUM_PATIENTS ∧
    out = concat (snd <$> blocks) ∧
    ∀ p b rs, blocks !! p = Some (b, rs) →
      generated (G := G) b rs ∧
      length rs = DAYS_OF_DATA ∧
      ∀ r k, r ∈ rs → k ∈ BASE_KEYS →
        is_Some (b !! k) ∧ r !! k = b !! k.
Proof.
  destruct (dataset_spec g) as (out & g' & blocks & Hrun & Hlen & Hout & Hall).
  exists out, g', blocks. do 3 (split; [done |]). intros p b rs Hp.
  pose proof (proj1 (Forall_lookup _ _) Hall p (b, rs) Hp)
    as (Hok & Hgen & Hrs & Hdays).
  do 2 (split; [done |]). intros r k Hr Hk.
  split; [by apply base_ok_keys |].
  apply list_elem_of_lookup in Hr as [d Hd].
  apply (Hdays d r Hd). by apply base_keys_not_daily.
Qed.

(** C7: the [comorbidities] of every generated patient, in the base record
    and in each daily record, is a list of at most 3 entries of the
    4-item vocabulary, without duplicates. *)
Theorem comorbidities_at_most_three_distinct (g : G) :
  length COMORBIDITIES = 4 ∧ NoDup COMORBIDITIES ∧
  ∃ out g' blocks,
    generate_all_patient_data g = Some (out, g') ∧
    length blocks = NUM_PATIENTS ∧
    out = concat (snd <$> blocks) ∧
    ∀ p (b : dict) rs, blocks !! p = Some (b, rs) →
      ∃ l, b !! "comorbidities" = Some (VList l) ∧
           (∀ r, r ∈ rs → r !! "comorbidities" = Some (VList l)) ∧
           0 ≤ length l ≤ 3 ∧ NoDup l ∧ ∀ x, x ∈ l → x ∈ COMORBIDITIES.
Proof.
  split; [done |]. split; [apply NoDup_COMORBIDITIES |].
  destruct (dataset_spec g) as (out & g' & blocks & Hrun & Hlen & Hout & Hall).
  exists out, g', blocks. do 3 (split; [done |]). intros p b rs Hp.
  pose proof (proj1 (Forall_lookup _ _) Hall p (b, rs) Hp)
    as (Hok & Hgen & Hrs & Hdays).
  destruct Hok as (pid & pr & age & gender & l & re & today & ago & Hb).
  destruct_and!. exists l. split; [done |]. split.
  { intros r Hr. apply list_elem_of_lookup in Hr as [d Hd].
    destruct (Hdays d r Hd) as [_ Hframe]. rewrite Hframe; [done |].
    apply base_keys_not_daily. unfold BASE_KEYS.
    rewrite !elem_of_cons. auto. }
  split; [lia |]. done.
Qed.

End Dataset.

(** ** The main block *)

Section MainClaims.
Context {G : Type} `{Source G}.

(** C9: when the endpoint or the credential is absent from the
    environment, the program still generates the whole record set, attempts
    neither the construction of a client nor any call to the index (it only
    prints), and exits with code 0. *)
Theorem missing_configuration_skips_ingestion
    (env : gmap string string) (es : backend) (g : G) :
  env !! "ELASTICSEARCH_ENDPOINT" = None ∨ env !! "API_KEY" = None →
  ∃ data g',
    generate_all_patient_data g = Some (data, g') ∧
    length data = NUM_PATIENTS * DAYS_OF_DATA ∧
    all_data (main env es g) = Some data ∧
    exit_code (main env es g) = 0%Z ∧
    Forall (λ e, is_print e = true) (trace (main env es g)).
Proof.
  intros Henv.
  destruct (dataset_spec g) as (out & g' & blocks & Hrun & Hlen & Hout & Hall).
  exists out, g'. split; [done |]. split.
  { rewrite Hout, (length_concat_uniform DAYS_OF_DATA)
      by by apply blocks_uniform.
    by rewrite length_fmap, Hlen. }
  unfold main. rewrite Hrun.
  assert (truthy (env !! "ELASTICSEARCH_ENDPOINT") && truthy (env !! "API_KEY")
          = false) as ->.
  { destruct Henv as [-> | ->]; [done |]. apply andb_false_r. }
  simpl. repeat split. repeat constructor.
Qed.

End MainClaims.

(** ** Concrete runs on the tape *)

Module Demo.

(** The draws of one patient's base record, ending with [profile]: the
    raw draw that selects the profile. *)
Definition base_draws (profile : Z) : Tape.tape :=
  [7; profile; 10; 1; 2; 0; 1; 1; 1700000000000000; 15]%Z.

(** A day without the profile branches: jitter, three symptoms, four vitals. *)
Definition day_draws (jitter : Z) : Tape.tape := [jitter; 0; 0; 0; 0; 0; 0; 0]%Z.

(** A stable patient seeded at 150.006 whose weight stays put for three
    days and drops by 0.002 on day 3. *)
Definition stable_tape : Tape.tape :=
  base_draws 0 ++ [60%Z] ++ day_draws 500000 ++ day_draws 500000
    ++ day_draws 500000 ++ day_draws 498000.

(** A non-adherent patient, trigger day 7. *)
Definition non_adherent_tape : Tape.tape := base_draws 950000 ++ [60; 2]%Z.

(** A high-risk patient, trigger day 9. *)
Definition high_risk_tape : Tape.tape := base_draws 800000 ++ [60; 4]%Z.

(** The base record the generator draws from [t] and the state it leaves. *)
Definition base_of (t : Tape.tape) : dict :=
  match generate_base_patient_info t with
  | Some (b, _) => b
  | None => ∅
  end.

Definition after_base (t : Tape.tape) : Tape.tape :=
  match generate_base_patient_info t with
  | Some (_, t') => t'
  | None => []
  end.

Definition series_of (t : Tape.tape) : list dict :=
  match generate_daily_time_series (base_of t) (after_base t) with
  | Some (rs, _) => rs
  | None => []
  end.

Definition quiet_backend : backend :=
  {| new_client := λ _ _, inr ();
     indices_exists := λ _, inr false;
     indices_delete := λ _, inr ();
     load_mapping := inr ();
     indices_create := λ _, inr ();
     bulk := λ _ data, inr (length data) |}.

End Demo.

(** [r[k]] read as a number. *)
Definition field_number (r : dict) (k : string) : option Q :=
  r !! k ≫= as_number.

(** C1 as the specification words it: the field is 0 on days 0 to 2 and,
    from day 3 on, the [weight] field of day [d] minus the [weight] field of
    day [d - 3]. *)
Definition gain_is_weight_field_difference (rs : list dict) : Prop :=
  ∀ d r, rs !! d = Some r →
    ∃ gain, field_number r "weight_gain_over_3_days" = Some gain ∧
      (d < 3 → (gain == 0)%Q) ∧
      (3 ≤ d →
         ∃ r3 weight_d weight_3,
           rs !! (d - 3) = Some r3 ∧
           field_number r "weight" = Some weight_d ∧
           field_number r3 "weight" = Some weight_3 ∧
           (gain == weight_d - weight_3)%Q).


(** ** The claims at concrete runs *)

(** The field [k] of the record of day [d], read as a number. *)
Definition cell (rs : list dict) (d : nat) (k : string) : option Q :=
  rs !! d ≫= λ r, field_number r k.

Lemma cell_lookup (rs : list dict) d r k q :
  rs !! d = Some r → field_number r k = Some q → cell rs d k = Some q.
Proof. intros Hr Hq. unfold cell. by rewrite Hr. Qed.

(** A generated patient's base record has what the series theorems ask
    of [base_info]: a profile and an ISO discharge date. *)
Lemma generated_base_ok {G} `{Source G} (b : dict) (rs : list dict) :
  generated (G := G) b rs → base_ok b.
Proof.
  intros (g0 & g1 & g2 & Hb & _).
  by apply (wp_elim _ _ g0 (λ b _, base_ok b) b g1
              (generate_base_patient_info_spec g0)).
Qed.

(** Whatever the tape, [Demo.series_of] is the series of a generated
    patient. *)
Lemma demo_generated (t : Tape.tape) :
  generated (G := Tape.tape) (Demo.base_of t) (Demo.series_of t).
Proof.
  destruct (generate_base_patient_info_spec t) as (b & t1 & Hrun1 & Hok).
  destruct Hok as (pid & p & age & gender & l & re & today & ago & Hb).
  destruct_and!.
  destruct (series_spec b (VStr p) (today - timedelta_days ago) t1)
    as (seed & wg & na & st & (dd & t2 & t3 & _ & _ & Hrun2) & _);
    [done | done |].
  exists t, t1, t3.
  unfold Demo.series_of, Demo.base_of, Demo.after_base.
  rewrite Hrun1, Hrun2. done.
Qed.

(** C1 fails as worded: for the stable patient of [Demo.stable_tape] the
    running weight is 150.006 on day 0 and 150.004 on day 3, so the [weight]
    fields are 150.01 and 150.00 while [weight_gain_over_3_days] of day 3 is
    the rounding of -0.002, that is 0.00 and not -0.01. *)
Lemma gain_field_differs_from_weight_fields :
  generated (G := Tape.tape) (Demo.base_of Demo.stable_tape)
            (Demo.series_of Demo.stable_tape) ∧
  ¬ gain_is_weight_field_difference (Demo.series_of Demo.stable_tape).
Proof.
  split; [apply demo_generated |]. intros Hclaim.
  assert (Hcells :
    cell (Demo.series_of Demo.stable_tape) 3 "weight_gain_over_3_days"
      = Some (0 # 100)%Q ∧
    cell (Demo.series_of Demo.stable_tape) 3 "weight" = Some (15000 # 100)%Q ∧
    cell (Demo.series_of Demo.stable_tape) 0 "weight" = Some (15001 # 100)%Q)
    by (vm_compute; repeat split; reflexivity).
  destruct Hcells as (Cgain & Cd & C3).
  destruct (Demo.series_of Demo.stable_tape !! 3) as [r |] eqn:Hr.
  2: { unfold cell in Cd. rewrite Hr in Cd. simpl in Cd. discriminate Cd. }
  destruct (Hclaim 3 r Hr) as (gain & Hgain & _ & Hdiff).
  destruct Hdiff as (r3 & weight_d & weight_3 & Hr3 & Hd & H3 & Heq); [lia |].
  rewrite (cell_lookup _ _ _ _ _ Hr Hgain) in Cgain.
  rewrite (cell_lookup _ _ _ _ _ Hr Hd) in Cd.
  change (3 - 3) with 0 in Hr3.
  rewrite (cell_lookup _ _ _ _ _ Hr3 H3) in C3.
  injection Cgain as ->. injection Cd as ->. injection C3 as ->.
  revert Heq. by vm_compute.
Qed.

(** The stable patient of [Demo.stable_tape] meets the hypotheses of C1. *)
Lemma weight_gain_rounds_running_difference_witness :
  Demo.base_of Demo.stable_tape !! "profile_type" = Some (VStr "stable") ∧
  Demo.base_of Demo.stable_tape !! "discharge_date"
    = Some (VIso 1696112000000000) ∧
  ∃ seed wg na st,
    series_run (Demo.base_of Demo.stable_tape)
               (Demo.after_base Demo.stable_tape) seed wg na st ∧
    length (records st) = DAYS_OF_DATA ∧
    ∀ d r, records st !! d = Some r →
      ∃ w, daily_weights st !! d = Some w ∧
        r !! "weight" = Some (VFloat (round_ndigits w 2)) ∧
        (d < 3 → r !! "weight_gain_over_3_days" = Some (VInt 0)) ∧
        (3 ≤ d →
           ∃ r3 w3,
             records st !! (d - 3) = Some r3 ∧
             daily_weights st !! (d - 3) = Some w3 ∧
             r3 !! "weight" = Some (VFloat (round_ndigits w3 2)) ∧
             r !! "weight_gain_over_3_days"
               = Some (VFloat (round_ndigits (w - w3) 2)) ∧
             (- 0.01 <= round_ndigits (w - w3) 2
                        - (round_ndigits w 2 - round_ndigits w3 2))%Q ∧
             (round_ndigits (w - w3) 2
                - (round_ndigits w 2 - round_ndigits w3 2) <= 0.01)%Q).
Proof.
  split; [vm_compute; reflexivity |]. split; [vm_compute; reflexivity |].
  apply (weight_gain_rounds_running_difference
           (Demo.base_of Demo.stable_tape) (VStr "stable") 1696112000000000
           (Demo.after_base Demo.stable_tape)); vm_compute; reflexivity.
Defined.

(** The non-adherent patient of [Demo.non_adherent_tape] meets the
    hypotheses of C2. *)
Lemma consecutive_missed_meds_two_or_zero_witness :
  Demo.base_of Demo.non_adherent_tape !! "profile_type"
    = Some (VStr "non_adherent") ∧
  Demo.base_of Demo.non_adherent_tape !! "discharge_date"
    = Some (VIso 1696112000000000) ∧
  ∃ seed wg na st,
    series_run (Demo.base_of Demo.non_adherent_tape)
               (Demo.after_base Demo.non_adherent_tape) seed wg na st ∧
    length (records st) = DAYS_OF_DATA ∧
    ∀ d r, records st !! d = Some r →
      ∃ today,
        r !! "medication_adherence" = Some (VBool today) ∧
        (r !! "consecutive_missed_meds" = Some (VInt 2) ∨
         r !! "consecutive_missed_meds" = Some (VInt 0)) ∧
        (r !! "consecutive_missed_meds" = Some (VInt 2) ↔
           1 ≤ d ∧ today = false ∧
           ∃ r', records st !! (d - 1) = Some r' ∧
                 r' !! "medication_adherence" = Some (VBool false)).
Proof.
  split; [vm_compute; reflexivity |]. split; [vm_compute; reflexivity |].
  apply (consecutive_missed_meds_two_or_zero
           (Demo.base_of Demo.non_adherent_tape) (VStr "non_adherent")
           1696112000000000 (Demo.after_base Demo.non_adherent_tape));
    vm_compute; reflexivity.
Defined.

(** The non-adherent patient of [Demo.non_adherent_tape] meets the
    hypotheses of C3. *)
Lemma non_adherent_from_trigger_day_witness :
  Demo.base_of Demo.non_adherent_tape !! "profile_type"
    = Some (VStr "non_adherent") ∧
  Demo.base_of Demo.non_adherent_tape !! "discharge_date"
    = Some (VIso 1696112000000000) ∧
  ∃ seed wg na st,
    series_run (Demo.base_of Demo.non_adherent_tape)
               (Demo.after_base Demo.non_adherent_tape) seed wg na st ∧
    length (records st) = DAYS_OF_DATA ∧
    (5 ≤ na ≤ 20)%Z ∧
    ∀ d r, records st !! d = Some r →
      ((na ≤ Z.of_nat d)%Z →
         r !! "medication_adherence" = Some (VBool false)) ∧
      ((Z.of_nat d < na)%Z →
         r !! "medication_adherence" = Some (VBool true)).
Proof.
  split; [vm_compute; reflexivity |]. split; [vm_compute; reflexivity |].
  apply (non_adherent_from_trigger_day
           (Demo.base_of Demo.non_adherent_tape) 1696112000000000
           (Demo.after_base Demo.non_adherent_tape)); vm_compute; reflexivity.
Defined.

(** The high-risk patient of [Demo.high_risk_tape] meets the hypotheses
    of C4. *)
Lemma weight_gain_swelling_from_trigger_day_witness :
  Demo.base_of Demo.high_risk_tape !! "profile_type"
    = Some (VStr "high_risk_weight_gain") ∧
  Demo.base_of Demo.high_risk_tape !! "discharge_date"
    = Some (VIso 1696112000000000) ∧
  ∃ seed wg na st,
    series_run (Demo.base_of Demo.high_risk_tape)
               (Demo.after_base Demo.high_risk_tape) seed wg na st ∧
    length (records st) = DAYS_OF_DATA ∧
    (5 ≤ wg ≤ 20)%Z ∧
    ∀ d r, records st !! d = Some r →
      ∃ s, r !! "symptom_swelling" = Some (VInt s) ∧
           ((wg ≤ Z.of_nat d)%Z → (4 ≤ s ≤ 8)%Z) ∧
           ((Z.of_nat d < wg)%Z → (1 ≤ s ≤ 3)%Z).
Proof.
  split; [vm_compute; reflexivity |]. split; [vm_compute; reflexivity |].
  apply (weight_gain_swelling_from_trigger_day
           (Demo.base_of Demo.high_risk_tape) 1696112000000000
           (Demo.after_base Demo.high_risk_tape)); vm_compute; reflexivity.
Defined.

(** The high-risk patient of [Demo.high_risk_tape] meets the hypotheses
    of C8. *)
Lemma weight_series_is_a_fold_witness :
  Demo.base_of Demo.high_risk_tape !! "profile_type"
    = Some (VStr "high_risk_weight_gain") ∧
  Demo.base_of Demo.high_risk_tape !! "discharge_date"
    = Some (VIso 1696112000000000) ∧
  ∃ seed wg na st,
    series_run (Demo.base_of Demo.high_risk_tape)
               (Demo.after_base Demo.high_risk_tape) seed wg na st ∧
    (150 <= seed)%Q ∧ (seed <= 250)%Q ∧
    length (daily_weights st) = DAYS_OF_DATA ∧
    ∀ d w, daily_weights st !! d = Some w →
      let prev := prev_weight seed (daily_weights st) d in
      let active := gain_active (VStr "high_risk_weight_gain") wg d in
      (active = true ↔
         VStr "high_risk_weight_gain" = VStr "high_risk_weight_gain"
         ∧ (wg ≤ Z.of_nat d)%Z) ∧
      weight_step prev w active ∧
      (active = false → (-0.5 <= w - prev)%Q ∧ (w - prev <= 0.5)%Q) ∧
      (active = true → (0.5 <= w - prev)%Q ∧ (w - prev <= 3.0)%Q) ∧
      ∃ r, records st !! d = Some r ∧
           r !! "weight" = Some (VFloat (round_ndigits w 2)).
Proof.
  split; [vm_compute; reflexivity |]. split; [vm_compute; reflexivity |].
  apply (weight_series_is_a_fold
           (Demo.base_of Demo.high_risk_tape) (VStr "high_risk_weight_gain")
           1696112000000000 (Demo.after_base Demo.high_risk_tape));
    vm_compute; reflexivity.
Defined.

(** The stable patient of [Demo.stable_tape] meets the hypotheses of C10. *)
Lemma adherent_profiles_never_miss_witness :
  VStr "stable" ≠ VStr "non_adherent" ∧
  Demo.base_of Demo.stable_tape !! "profile_type" = Some (VStr "stable") ∧
  Demo.base_of Demo.stable_tape !! "discharge_date"
    = Some (VIso 1696112000000000) ∧
  ∃ seed wg na st,
    series_run (Demo.base_of Demo.stable_tape)
               (Demo.after_base Demo.stable_tape) seed wg na st ∧
    length (records st) = DAYS_OF_DATA ∧
    ∀ d r, records st !! d = Some r →
      r !! "medication_adherence" = Some (VBool true) ∧
      r !! "consecutive_missed_meds" = Some (VInt 0).
Proof.
  split; [discriminate |].
  split; [vm_compute; reflexivity |]. split; [vm_compute; reflexivity |].
  apply (adherent_profiles_never_miss
           (Demo.base_of Demo.stable_tape) (VStr "stable") 1696112000000000
           (Demo.after_base Demo.stable_tape));
    [discriminate | vm_compute; reflexivity ..].
Defined.

(** An empty environment meets the hypothesis of C9. *)
Lemma missing_configuration_skips_ingestion_witness :
  ((∅ : gmap string string) !! "ELASTICSEARCH_ENDPOINT" = None ∨
   (∅ : gmap string string) !! "API_KEY" = None) ∧
  ∃ data g',
    generate_all_patient_data (G := Tape.tape) [] = Some (data, g') ∧
    length data = NUM_PATIENTS * DAYS_OF_DATA ∧
    all_data (main ∅ Demo.quiet_backend ([] : Tape.tape)) = Some data ∧
    exit_code (main ∅ Demo.quiet_backend ([] : Tape.tape)) = 0%Z ∧
    Forall (λ e, is_print e = true)
           (trace (main ∅ Demo.quiet_backend ([] : Tape.tape))).
Proof.
  split; [left; reflexivity |].
  apply (missing_configuration_skips_ingestion ∅ Demo.quiet_backend
           ([] : Tape.tape)).
  left. reflexivity.
Defined.

(** * Further properties of the generator *)

(** ** The remaining fields of a daily record *)

Lemma wp_conj {G A} (m : M G A) (g : G) (P Q : A → G → Prop) :
  wp m g P → wp m g Q → wp m g (λ a g', P a g' ∧ Q a g').
Proof.
  intros (a & g1 & Hm & HP) (a' & g1' & Hm' & HQ).
  exists a, g1. split; [done |]. split; [done |]. congruence.
Qed.

Section Readings.
Context {G : Type} `{Source G}.
Variables (base_info : dict) (profile : value) (discharge_date : Z).
Variables (wg_start na_start : Z).
Hypothesis Hprofile : base_info !! "profile_type" = Some profile.

(** The vitals, the two other symptom scores and the date of the record of
    day [d]. *)
Definition readings_ok (d : nat) (r : dict) : Prop :=
  r !! "date" = Some (VIso (discharge_date + timedelta_days (Z.of_nat d))) ∧
  (∃ x, r !! "blood_pressure_systolic" = Some (VInt x) ∧ (110 ≤ x ≤ 160)%Z) ∧
  (∃ x, r !! "blood_pressure_diastolic" = Some (VInt x) ∧ (70 ≤ x ≤ 100)%Z) ∧
  (∃ x, r !! "heart_rate" = Some (VInt x) ∧ (60 ≤ x ≤ 100)%Z) ∧
  (∃ x, r !! "oxygen_saturation" = Some (VFloat (round_ndigits x 2)) ∧
        (92 <= x)%Q ∧ (x <= 99)%Q) ∧
  (∃ x, r !! "symptom_shortness_of_breath" = Some (VInt x) ∧
        if gain_active profile wg_start d
        then (4 ≤ x ≤ 8)%Z else (1 ≤ x ≤ 3)%Z) ∧
  (∃ x, r !! "symptom_fatigue" = Some (VInt x) ∧
        if meds_missed profile na_start d
        then (5 ≤ x ≤ 9)%Z else (1 ≤ x ≤ 4)%Z).

(** The symptom dictionary has the three symptom keys only; breath and
    fatigue are in the ranges of the branches taken so far. *)
Definition scores_ok (d : nat) (missed : bool) (sy : dict) : Prop :=
  (∀ k, k ≠ "symptom_shortness_of_breath" → k ≠ "symptom_fatigue" →
        k ≠ "symptom_swelling" → sy !! k = None) ∧
  (∃ x, sy !! "symptom_shortness_of_breath" = Some (VInt x) ∧
        if gain_active profile wg_start d
        then (4 ≤ x ≤ 8)%Z else (1 ≤ x ≤ 3)%Z) ∧
  (∃ x, sy !! "symptom_fatigue" = Some (VInt x) ∧
        if missed then (5 ≤ x ≤ 9)%Z else (1 ≤ x ≤ 4)%Z).

Definition readings_inv (n : nat) (st : series_state) : Prop :=
  length (records st) = n ∧
  length (daily_weights st) = n ∧
  length (daily_adherence st) = n ∧
  ∀ d r, records st !! d = Some r → readings_ok d r.

Ltac lookup_step :=
  repeat first
    [ rewrite lookup_insert_eq
    | rewrite lookup_insert_ne by (discriminate || congruence)
    | rewrite lookup_empty ].

Ltac run_step :=
  lazymatch goal with
  | |- wp (bind _ _) _ _ => apply wp_bind
  | |- wp (draw (randint _ _)) _ _ =>
      apply wp_randint; [lia | intros ? ? ?; cbv beta]
  | |- wp (draw (uniform _ _)) _ _ =>
      apply wp_uniform; [lra | intros ? ? [? ?]; cbv beta]
  | |- wp (is_profile _ _) _ _ =>
      eapply wp_is_profile; [exact Hprofile | cbv beta]
  | |- wp (ret _) _ _ => apply wp_ret
  end.

Lemma simulate_day_readings st n g :
  readings_inv n st →
  wp (simulate_day base_info discharge_date wg_start na_start st (Z.of_nat n))
     g (λ st' _, readings_inv (S n) st').
Proof.
  intros (Hrs & Hws & Hadh & Hdays).
  unfold simulate_day. cbv zeta.
  do 2 run_step. do 2 run_step. do 2 run_step. do 2 run_step. do 2 run_step.
  apply wp_seq with (P := λ ws _, scores_ok n false ws.2).
  { unfold scores_ok.
    destruct (gain_active profile wg_start n) eqn:Hactive;
      unfold gain_active in Hactive; rewrite Hactive.
    - do 2 run_step. do 2 run_step. do 2 run_step. run_step. simpl.
      split; [intros k ? ? ?; by lookup_step |].
      split; eexists; (split; [by lookup_step | done]).
    - run_step. simpl.
      split; [intros k ? ? ?; by lookup_step |].
      split; eexists; (split; [by lookup_step | done]). }
  intros [w sy] g3 Hsy. simpl.
  do 2 run_step.
  apply wp_seq with
    (P := λ ms _, scores_ok n (meds_missed profile na_start n) ms.2).
  { unfold meds_missed.
    destruct (str_eq profile "non_adherent" && (na_start <=? Z.of_nat n)%Z).
    - do 3 run_step. simpl.
      destruct Hsy as (Hdom & (b & Hb & Hrange) & _).
      split; [intros k ? ? ?; rewrite lookup_insert_ne by done;
              by apply Hdom |].
      split; [exists b; by rewrite lookup_insert_ne by discriminate |].
      eexists. split; [by rewrite lookup_insert_eq | done].
    - run_step. by simpl. }
  intros [a sy'] g4 Hsy'. simpl.
  apply wp_seq with (P := λ v _, is_Some (py_round v 2)).
  { destruct (Z.leb_spec 3 (Z.of_nat n)); [| by run_step].
    destruct (lookup_lt_is_Some_2 (daily_weights st) (n - 3))
      as [w3 Hw3]; [lia |].
    run_step. eapply wp_try.
    { replace (Z.of_nat n - 3)%Z with (Z.of_nat (n - 3)) by lia.
      rewrite py_index_nat, lookup_app_l by lia. exact Hw3. }
    by run_step. }
  intros gain g5 [rounded Hgain]. cbv beta.
  apply wp_seq with (P := λ _ _, True).
  { destruct (negb a && (1 <=? Z.of_nat n)%Z) eqn:Hc; [| by run_step].
    apply andb_true_iff in Hc as [_ Hc]. apply Z.leb_le in Hc.
    destruct (lookup_lt_is_Some_2 (daily_adherence st) (n - 1))
      as [y Hy]; [lia |].
    run_step. eapply wp_try.
    { replace (Z.of_nat n - 1)%Z with (Z.of_nat (n - 1)) by lia.
      rewrite py_index_nat, lookup_app_l by lia. exact Hy. }
    by run_step. }
  intros missed g6 _. cbv beta.
  do 2 run_step. do 2 run_step. do 2 run_step. do 2 run_step.
  run_step. eapply wp_try; [exact Hgain |]. run_step.
  unfold readings_inv. simpl. rewrite !length_app. simpl.
  split; [lia |]. split; [lia |]. split; [lia |].
  intros d r Hr. apply lookup_app_Some in Hr as [Hr | [Hlen Hr]];
    [by apply Hdays |].
  rewrite Hrs in Hlen, Hr.
  assert (d = n) as ->.
  { apply lookup_lt_Some in Hr. simpl in Hr. lia. }
  rewrite Nat.sub_diag in Hr. injection Hr as <-.
  destruct Hsy' as (Hdom & (b & Hb & Hbrange) & (f & Hf & Hfrange)).
  unfold dict_update, readings_ok.
  assert (Hfield : ∀ k v fields rest,
             k ≠ "symptom_shortness_of_breath" → k ≠ "symptom_fatigue" →
             k ≠ "symptom_swelling" →
             fields !! k = Some v →
             (sy' ∪ (fields ∪ rest)) !! k = Some v).
  { intros k v fields rest ? ? ? Hk.
    rewrite lookup_union_r by (by apply Hdom).
    by apply lookup_union_Some_l. }
  split.
  { rewrite lookup_union_r by (by apply Hdom).
    rewrite lookup_union_r by (by lookup_step).
    by rewrite lookup_insert_eq. }
  do 3 (split; [eexists; split;
                 [apply Hfield; first [discriminate | by lookup_step] | done]
               |]).
  split; [eexists; split;
            [apply Hfield; first [discriminate | by lookup_step]
            | split; lra] |].
  split; [exists b | exists f]; (split; [| done]);
    by apply lookup_union_Some_l.
Qed.

End Readings.

Section FullSeries.
Context {G : Type} `{Source G}.
Implicit Types (base_info : dict) (g : G) (st : series_state).

Lemma series_setup_date base_info dd g seed dd' wg na g1 :
  base_info !! "discharge_date" = Some (VIso dd) →
  series_setup base_info g = Some ((seed, dd', wg, na), g1) →
  dd' = dd.
Proof.
  intros Hdd. unfold series_setup, bind, draw, getitem, try.
  rewrite Hdd. simpl.
  destruct (uniform 150.0 250.0 g) as [seed0 g0].
  destruct (start_day base_info "high_risk_weight_gain" g0)
    as [[wg' g2] |]; [| discriminate].
  destruct (start_day base_info "non_adherent" g2) as [[na' g3] |];
    [| discriminate].
  unfold ret. intros Heq. injection Heq. congruence.
Qed.

(** Both invariants hold of the state in which the loop ends. *)
Lemma series_full base_info profile dd g :
  base_info !! "profile_type" = Some profile →
  base_info !! "discharge_date" = Some (VIso dd) →
  ∃ seed wg na st,
    series_run base_info g seed wg na st ∧
    (150 <= seed)%Q ∧ (seed <= 250)%Q ∧
    start_ok profile "high_risk_weight_gain" wg ∧
    start_ok profile "non_adherent" na ∧
    series_inv base_info profile seed wg na DAYS_OF_DATA st ∧
    readings_inv profile dd wg na DAYS_OF_DATA st.
Proof.
  intros Hp Hdd.
  destruct (series_spec base_info profile dd g Hp Hdd)
    as (seed & wg & na & st & Hrun & Hlo & Hhi & Hwg & Hna & Hinv).
  exists seed, wg, na, st. do 6 (split; [done |]).
  destruct Hrun as (dd' & g1 & g2 & Hsetup & Hloop & _).
  assert (dd' = dd) as -> by by eapply series_setup_date.
  assert (Hwp : wp (series_loop base_info (seed, dd, wg, na)) g1
                   (λ st' _, readings_inv profile dd wg na DAYS_OF_DATA st')).
  { unfold series_loop. apply wp_foldM_range.
    - by repeat split.
    - intros i st0 g0 _ Hinv0. by apply simulate_day_readings. }
  destruct Hwp as (st' & g2' & Hloop' & Hread). congruence.
Qed.

End FullSeries.

(** ** Rounding keeps a value between two hundredths *)



(** ** Readings, dates and failures of one series *)

(** The value is a Python string, ISO-formatted or not. *)
Definition is_string (v : value) : bool :=
  match v with
  | VStr _ | VIso _ => true
  | _ => false
  end.

Section SeriesExtras.
Context {G : Type} `{Source G}.
Implicit Types (base_info : dict) (g : G) (st : series_state).

Lemma readings_inv_lookup profile dd wg na n st d r :
  readings_inv profile dd wg na n st →
  records st !! d = Some r → readings_ok profile dd wg na d r.
Proof. intros (_ & _ & _ & Hdays) Hr. by apply Hdays. Qed.




(** X4: a base record without a [profile_type], without a
    [discharge_date], or whose [discharge_date] is not a string makes the
    call raise: it returns no record at all. *)
Theorem series_raises_on_malformed_base base_info g :
  base_info !! "profile_type" = None ∨
  base_info !! "discharge_date" = None ∨
  (∃ v, base_info !! "discharge_date" = Some v ∧ is_string v = false) →
  generate_daily_time_series base_info g = None.
Proof.
  intros Hbad.
  unfold generate_daily_time_series, series_setup, start_day, is_profile,
    bind, draw, getitem, try.
  destruct (uniform 150.0 250.0 g) as [seed g0].
  destruct (base_info !! "discharge_date") as [v |] eqn:Hdd; [| done].
  destruct Hbad as [Hp | [Hnone | (v' & Hv' & Hstr)]]; [| done |].
  - destruct (fromisoformat v); [| done]. by rewrite Hp.
  - assert (v' = v) as -> by congruence. by destruct v.
Qed.


End SeriesExtras.

(** ** Bounds on the weight and on its three-day gain *)




Section WeightBounds.
Context {G : Type} `{Source G}.
Implicit Types (base_info : dict) (g : G) (st : series_state).





End WeightBounds.

(** ** The profile, the base record and the keys of a record *)

Lemma elem_of_concat {A} (x : A) (ls : list (list A)) :
  x ∈ concat ls ↔ ∃ l, x ∈ l ∧ l ∈ ls.
Proof.
  induction ls as [| l0 ls IH]; simpl.
  - split; [by intros ?%elem_of_nil | by intros (l & _ & ?%elem_of_nil)].
  - rewrite elem_of_app, IH. split.
    + intros [Hx | (l & Hx & Hl)].
      * exists l0. split; [done | by left].
      * exists l. split; [done | by right].
    + intros (l & Hx & Hl). apply elem_of_cons in Hl as [-> | Hl].
      * by left.
      * right. by exists l.
Qed.

Section BaseExtras.
Context {G : Type} `{Source G}.
Implicit Types (base_info : dict) (g : G) (st : series_state).

(** X8: [choose_profile] always returns, and what it returns is one of the
    three profile names. *)
Theorem choose_profile_returns_a_profile g :
  ∃ p g', choose_profile g = Some (p, g') ∧
          (p = "stable" ∨ p = "high_risk_weight_gain" ∨ p = "non_adherent").
Proof.
  destruct (choose_profile_spec g) as (p & g' & Hrun & Hin).
  exists p, g'. split; [done |].
  simpl in Hin. rewrite !elem_of_cons, elem_of_nil in Hin. tauto.
Qed.

Lemma base_keys_only g :
  wp generate_base_patient_info g
     (λ b _, ∀ k, k ∉ BASE_KEYS → b !! k = None).
Proof.
  unfold generate_base_patient_info.
  apply wp_bind, wp_draw.
  apply wp_seq with (P := λ _ _, True).
  { eapply wp_mono; [apply choose_profile_spec | done]. }
  intros profile g1 _.
  apply wp_bind, wp_draw.
  apply wp_seq with (P := λ _ _, True).
  { set (g2 := (randint 65 95 g1).2).
    destruct (choice_elem string ["Male"; "Female"] g2) as (x & Hx & Hin);
      [done |].
    exists x, (choice ["Male"; "Female"] g2).2. split; [| done].
    unfold draw_opt. destruct (choice ["Male"; "Female"] g2) as [o g'].
    simpl in Hx. by subst o. }
  intros gender g3 _.
  do 5 apply wp_bind, wp_draw. apply wp_ret.
  intros k Hk. unfold BASE_KEYS in Hk.
  repeat (apply not_elem_of_cons in Hk as [? Hk]).
  by repeat rewrite lookup_insert_ne by done.
Qed.

(** The draws of lines 43-51, which precede the reading of the clock on
    line 52. *)
Definition draws_before_clock : M G () :=
  patient_id <- draw uuid4 ;;
  profile_type <- choose_profile ;;
  age <- draw (randint 65 95) ;;
  gender <- draw_opt (choice ["Male"; "Female"]) ;;
  k <- draw (randint 0 3) ;;
  comorbidities <- draw (sample COMORBIDITIES (Z.to_nat k)) ;;
  previous_readmissions <- draw (randint 0 5) ;;
  ret ().

(** The discharge date is computed from the one reading of the clock and
    from the draw that follows it, the last of the call. *)
Lemma base_clock g :
  wp generate_base_patient_info g
     (λ b g', ∃ g_clock,
        draws_before_clock g = Some ((), g_clock) ∧
        b !! "discharge_date"
          = Some (VIso ((now g_clock).1
                        - timedelta_days (randint 30 90 (now g_clock).2).1)) ∧
        g' = (randint 30 90 (now g_clock).2).2).
Proof.
  destruct (generate_base_patient_info_spec g) as (b & g' & Hrun & _).
  exists b, g'. split; [done |]. revert Hrun.
  unfold generate_base_patient_info, draws_before_clock, bind, draw,
    draw_opt, ret.
  destruct (uuid4 g) as [pid g1].
  destruct (choose_profile g1) as [[p g2] |]; [| discriminate].
  destruct (randint 65 95 g2) as [age g3].
  destruct (choice ["Male"; "Female"] g3) as [[gender |] g4];
    [| discriminate].
  destruct (randint 0 3 g4) as [k g5].
  destruct (sample COMORBIDITIES (Z.to_nat k) g5) as [l g6].
  destruct (randint 0 5 g6) as [re g7].
  destruct (now g7) as [today g8] eqn:Hnow.
  destruct (randint 30 90 g8) as [ago g9] eqn:Hago.
  intros Heq. injection Heq as <- <-. exists g7.
  rewrite Hnow. simpl. rewrite Hago. simpl.
  split; [done |]. split; [| done].
  rewrite lookup_insert_ne by discriminate. by rewrite lookup_insert_eq.
Qed.

(** X9: every base record holds exactly the seven base keys: an age in
    65..95, a gender that is Male or Female, previous readmissions in 0..5,
    one of the three profile names, and a discharge date that is the reading
    of the clock, taken once after the draws of lines 43-51, minus the
    number of whole days, in 30..90, that the last draw of the call gives. *)
Theorem base_record_fields_and_ranges g :
  ∃ b g',
    generate_base_patient_info g = Some (b, g') ∧
    (∀ k, is_Some (b !! k) ↔ k ∈ BASE_KEYS) ∧
    (∃ id, b !! "patient_id" = Some (VStr id)) ∧
    (∃ age, b !! "age" = Some (VInt age) ∧ (65 ≤ age ≤ 95)%Z) ∧
    (b !! "gender" = Some (VStr "Male") ∨
     b !! "gender" = Some (VStr "Female")) ∧
    (∃ n, b !! "previous_readmissions" = Some (VInt n) ∧ (0 ≤ n ≤ 5)%Z) ∧
    (∃ p, b !! "profile_type" = Some (VStr p) ∧
          (p = "stable" ∨ p = "high_risk_weight_gain" ∨ p = "non_adherent")) ∧
    (∃ g_clock,
        let today := (now g_clock).1 in
        let ago := (randint 30 90 (now g_clock).2).1 in
        draws_before_clock g = Some ((), g_clock) ∧
        b !! "discharge_date" = Some (VIso (today - ago * MICROS_PER_DAY)) ∧
        (30 ≤ ago ≤ 90)%Z ∧
        g' = (randint 30 90 (now g_clock).2).2).
Proof.
  destruct (wp_conj _ g _ _
              (wp_conj _ g _ _ (generate_base_patient_info_spec g)
                 (base_keys_only g))
              (base_clock g))
    as (b & g' & Hrun & (Hok & Honly) & (gc & Hbefore & Hdate & Hstate)).
  exists b, g'. split; [done |]. split.
  { intros k. split; [| by apply base_ok_keys].
    intros Hsome. destruct (decide (k ∈ BASE_KEYS)) as [| Hk]; [done |].
    rewrite (Honly k Hk) in Hsome. by destruct Hsome. }
  destruct Hok as (pid & p & age & gender & l & re & today & ago & Hb).
  destruct_and!.
  split; [by exists pid |]. split; [by exists age |]. split.
  { match goal with Hg : gender ∈ _ |- _ =>
      rewrite !elem_of_cons, elem_of_nil in Hg;
      destruct Hg as [-> | [-> | []]]; auto end. }
  split; [by exists re |]. split.
  { exists p. split; [done |].
    match goal with Hp : p ∈ _ |- _ =>
      simpl in Hp; rewrite !elem_of_cons, elem_of_nil in Hp; tauto end. }
  exists gc. cbv zeta. do 2 (split; [done |]).
  split; [| done]. apply randint_range. lia.
Qed.

(** What the two invariants say of the series of a generated patient. *)
Lemma generated_series (b : dict) (rs : list dict) :
  generated (G := G) b rs →
  ∃ profile dd seed wg na st,
    rs = records st ∧
    b !! "profile_type" = Some (VStr profile) ∧
    b !! "discharge_date" = Some (VIso dd) ∧
    series_inv b (VStr profile) seed wg na DAYS_OF_DATA st ∧
    readings_inv (VStr profile) dd wg na DAYS_OF_DATA st.
Proof.
  intros Hgen. pose proof (generated_base_ok b rs Hgen) as Hok.
  destruct Hgen as (g0 & g1 & g2 & _ & Hrun).
  destruct Hok as (pid & p & age & gender & l & re & today & ago & Hb).
  destruct_and!.
  destruct (series_full b (VStr p) (today - timedelta_days ago) g1)
    as (seed & wg & na & st & (dd' & g1' & g2' & _ & _ & Hrun') & _ & _ & _
        & _ & Hinv & Hread); [done | done |].
  exists p, (today - timedelta_days ago)%Z, seed, wg, na, st.
  split; [congruence |]. done.
Qed.


(** X11: each of the 3000 records of the dataset has exactly twenty keys,
    the seven base keys and the thirteen per-day keys. *)
Theorem dataset_records_have_twenty_keys g :
  ∃ out g',
    generate_all_patient_data g = Some (out, g') ∧
    length out = NUM_PATIENTS * DAYS_OF_DATA ∧
    length (BASE_KEYS ++ DAILY_KEYS) = 20 ∧ NoDup (BASE_KEYS ++ DAILY_KEYS) ∧
    ∀ r k, r ∈ out → (is_Some (r !! k) ↔ k ∈ BASE_KEYS ++ DAILY_KEYS).
Proof.
  destruct (dataset_spec g) as (out & g' & blocks & Hrun & Hlen & Hout & Hall).
  exists out, g'. split; [done |]. split.
  { rewrite Hout, (length_concat_uniform DAYS_OF_DATA)
      by by apply blocks_uniform.
    by rewrite length_fmap, Hlen. }
  split; [done |]. split.
  { apply (bool_decide_unpack _). by vm_compute. }
  intros r k Hr. rewrite Hout in Hr.
  apply elem_of_concat in Hr as (rs & Hr & Hrs).
  apply list_elem_of_fmap in Hrs as ([b rs'] & -> & Hblock). simpl in Hr.
  pose proof (proj1 (Forall_forall _ _) Hall _ Hblock)
    as (Hok & (g0 & g1 & g2 & Hbase & Hseries) & _ & Hdays).
  apply list_elem_of_lookup in Hr as [d Hd].
  destruct (Hdays d r Hd) as [Hday Hframe].
  pose proof (wp_elim _ _ g0 _ b g1 (base_keys_only g0) Hbase) as Honly.
  destruct (generated_series b rs') as (p & dd & seed & wg & na & st & ->
                                        & Hp & Hdd & Hinv & Hread).
  { by exists g0, g1, g2. }
  destruct (readings_inv_lookup _ _ _ _ _ _ _ _ Hread Hd)
    as (Hdate & (? & Hsys & _) & (? & Hdia & _) & (? & Hhr & _)
        & (? & Hox & _) & (? & Hsob & _) & (? & Hfat & _)).
  destruct (series_inv_lookup _ _ _ _ _ _ _ _ _ Hinv Hd) as [_ Hday'].
  destruct Hday' as (r0 & w & a & Hr0 & _ & _ & _ & _ & Hweight & Hadh & _
                     & Hgain & Hmissed & (? & Hswell & _) & _).
  assert (r0 = r) as -> by congruence.
  rewrite elem_of_app.
  destruct (decide (k ∈ DAILY_KEYS)) as [Hk | Hk].
  - split; [by right |]. intros _. unfold DAILY_KEYS in Hk.
    rewrite !elem_of_cons, elem_of_nil in Hk.
    repeat (destruct Hk as [-> | Hk]; [by eexists |]). done.
  - rewrite (Hframe k Hk). split.
    + intros Hsome. left.
      destruct (decide (k ∈ BASE_KEYS)) as [| Hkb]; [done |].
      rewrite (Honly k Hkb) in Hsome. by destruct Hsome.
    + intros [Hkb | ?]; [by apply base_ok_keys | done].
Qed.

End BaseExtras.

(** ** Ingestion *)

Ltac ingest_cases es index data :=
  unfold ingest_data, ingest_body;
  destruct (indices_exists es index) as [? | [|]];
  destruct (indices_delete es index) as [? | []];
  destruct (load_mapping es) as [? | []];
  destruct (indices_create es index) as [? | []];
  destruct (bulk es index data) as [? | ?];
  simpl.

Ltac event_membership :=
  rewrite ?elem_of_app, ?elem_of_cons, ?elem_of_nil.

Ltac event_cases Hx :=
  repeat match type of Hx with
         | _ ∨ _ => destruct Hx as [Hx | Hx]; try done
         end;
  try done.

(** X12: [ingest_data] deletes the index exactly when the existence check
    answers that it exists. *)
Theorem ingest_deletes_exactly_an_existing_index
    (es : backend) (index : string) (data : list dict) :
  IndicesDelete index ∈ ingest_data es index data ↔
  indices_exists es index = inr true.
Proof.
  ingest_cases es index data; event_membership;
    split; intros Hx; try done; try (by auto 10);
    event_cases Hx.
Qed.

(** X13: a bulk write is only ever submitted to the index that was asked
    for and with all the records, after the mapping was loaded and the
    index created, and after the old index, if any, was deleted. *)
Theorem bulk_write_follows_index_creation
    (es : backend) (index : string) (data : list dict) i k :
  Bulk i k ∈ ingest_data es index data →
  i = index ∧ k = length data ∧
  IndicesCreate index ∈ ingest_data es index data ∧
  load_mapping es = inr () ∧
  indices_create es index = inr () ∧
  (indices_exists es index = inr false ∨
   indices_exists es index = inr true ∧ indices_delete es index = inr ()).
Proof.
  ingest_cases es index data; event_membership; intros Hx;
    event_cases Hx;
    injection Hx as -> ->;
    (do 2 (split; [done |])); event_membership;
    (split; [by auto 12 |]); auto.
Qed.

(** X14: when the old index was deleted and the mapping file then cannot be
    loaded, the run ends with the index deleted and not created again: no
    bulk write is submitted and the message of the failure is the last line
    printed. *)
Theorem failed_mapping_leaves_index_deleted
    (es : backend) (index : string) (data : list dict) e :
  indices_exists es index = inr true →
  indices_delete es index = inr () →
  load_mapping es = inl e →
  IndicesDelete index ∈ ingest_data es index data ∧
  (IndicesCreate index ∉ ingest_data es index data) ∧
  (∀ i k, Bulk i k ∉ ingest_data es index data) ∧
  last (ingest_data es index data)
    = Some (Print ("An error occurred: " +:+ e)).
Proof.
  intros He Hd Hm. unfold ingest_data, ingest_body. rewrite He, Hd, Hm. simpl.
  split; [event_membership; by auto 10 |].
  split; [event_membership; intros Hx;
          by event_cases Hx |].
  split; [| done]. intros i k. event_membership. intros Hx.
  by event_cases Hx.
Qed.

(** X15: [ingest_data] never lets a failure out: its last action is always
    a print, of the number of documents the bulk write reported when every
    step succeeded, and otherwise of the message of a call that raised. *)
Theorem ingest_reports_success_or_failure
    (es : backend) (index : string) (data : list dict) :
  ∃ line,
    last (ingest_data es index data) = Some (Print line) ∧
    ((∃ n, bulk es index data = inr n ∧
           Bulk index (length data) ∈ ingest_data es index data ∧
           line = "Successfully ingested " +:+ pretty n +:+ " documents") ∨
     (∃ e, line = "An error occurred: " +:+ e ∧
           (indices_exists es index = inl e ∨ indices_delete es index = inl e ∨
            load_mapping es = inl e ∨ indices_create es index = inl e ∨
            bulk es index data = inl e))).
Proof.
  ingest_cases es index data; eexists; (split; [reflexivity |]);
    first [ right; eexists; split; [reflexivity |]; by auto 10
          | left; eexists; split; [reflexivity |]; split; [| reflexivity];
            event_membership; by auto 12 ].
Qed.

(** ** The main block with a configured destination *)

Lemma truthy_true (v : option string) :
  truthy v = true ↔ ∃ s, v = Some s ∧ s ≠ "".
Proof.
  destruct v as [s |]; simpl.
  - rewrite negb_true_iff, String.eqb_neq. split; [by exists s |].
    by intros (s' & [= ->] & ?).
  - split; [done | by intros (s & ? & _)].
Qed.

(** Both variables are set to non-empty strings. *)
Definition configured (env : gmap string string) (endpoint api_key : string)
    : Prop :=
  env !! "ELASTICSEARCH_ENDPOINT" = Some endpoint ∧ endpoint ≠ "" ∧
  env !! "API_KEY" = Some api_key ∧ api_key ≠ "".

Lemma configured_or_not (env : gmap string string) :
  (∃ endpoint api_key, configured env endpoint api_key) ∨
  truthy (env !! "ELASTICSEARCH_ENDPOINT") && truthy (env !! "API_KEY") = false.
Proof.
  destruct (truthy (env !! "ELASTICSEARCH_ENDPOINT")) eqn:He;
    destruct (truthy (env !! "API_KEY")) eqn:Hk; auto.
  apply truthy_true in He as (e & He & Hne).
  apply truthy_true in Hk as (k & Hk & Hnk).
  left. by exists e, k.
Qed.

Lemma configured_truthy (env : gmap string string) endpoint api_key :
  configured env endpoint api_key →
  truthy (env !! "ELASTICSEARCH_ENDPOINT") && truthy (env !! "API_KEY") = true.
Proof.
  intros (He & Hne & Hk & Hnk). apply andb_true_iff.
  split; apply truthy_true; eauto.
Qed.

Section MainExtras.
Context {G : Type} `{Source G}.

Lemma dataset_length (g : G) :
  ∃ data g', generate_all_patient_data g = Some (data, g') ∧
             length data = NUM_PATIENTS * DAYS_OF_DATA.
Proof.
  destruct (dataset_spec g) as (out & g' & blocks & Hrun & Hlen & Hout & Hall).
  exists out, g'. split; [done |].
  rewrite Hout, (length_concat_uniform DAYS_OF_DATA)
    by by apply blocks_uniform.
  by rewrite length_fmap, Hlen.
Qed.

(** The run when a variable is missing or empty. *)
Lemma main_skips (env : gmap string string) (es : backend) (g : G) data g' :
  generate_all_patient_data g = Some (data, g') →
  truthy (env !! "ELASTICSEARCH_ENDPOINT") && truthy (env !! "API_KEY") = false →
  main env es g =
    {| trace := [Print "Starting synthetic data generation...";
                 Print ("Generated " +:+ pretty (length data)
                        +:+ " total records for " +:+ pretty NUM_PATIENTS
                        +:+ " patients");
                 Print SKIP_WARNING];
       exit_code := 0; all_data := Some data |}.
Proof. intros Hrun Hoff. unfold main. by rewrite Hrun, Hoff. Qed.

(** The run when both variables are set. *)
Lemma main_connects (env : gmap string string) (es : backend) (g : G)
    data g' endpoint api_key :
  generate_all_patient_data g = Some (data, g') →
  configured env endpoint api_key →
  main env es g =
    let t2 := [Print "Starting synthetic data generation...";
               Print ("Generated " +:+ pretty (length data)
                      +:+ " total records for " +:+ pretty NUM_PATIENTS
                      +:+ " patients");
               Print "
Connecting to Elasticsearch..."; NewClient endpoint api_key] in
    match new_client es endpoint api_key with
    | inl _ => {| trace := t2; exit_code := 1; all_data := Some data |}
    | inr _ => {| trace := t2 ++ ingest_data es INDEX_NAME data;
                  exit_code := 0; all_data := Some data |}
    end.
Proof.
  intros Hrun Hon. unfold main.
  rewrite Hrun, (configured_truthy env endpoint api_key Hon).
  destruct Hon as (-> & _ & -> & _). done.
Qed.

Lemma ingest_never_constructs (es : backend) index data endpoint api_key :
  NewClient endpoint api_key ∉ ingest_data es index data.
Proof.
  ingest_cases es index data; event_membership; intros Hx;
    by event_cases Hx.
Qed.

Lemma ingest_bulk_arguments (es : backend) index data i k :
  Bulk i k ∈ ingest_data es index data → i = index ∧ k = length data.
Proof.
  ingest_cases es index data; event_membership; intros Hx;
    event_cases Hx;
    by injection Hx as -> ->.
Qed.

(** X16: a client is constructed exactly when both variables are set to
    non-empty strings, and then with exactly those two values; a variable
    set to the empty string counts as missing. *)
Theorem client_constructed_iff_both_values_non_empty
    (env : gmap string string) (es : backend) (g : G) endpoint api_key :
  NewClient endpoint api_key ∈ trace (main env es g) ↔
  env !! "ELASTICSEARCH_ENDPOINT" = Some endpoint ∧ endpoint ≠ "" ∧
  env !! "API_KEY" = Some api_key ∧ api_key ≠ "".
Proof.
  destruct (dataset_length g) as (data & g' & Hrun & _).
  destruct (configured_or_not env) as [(e & k & Hon) | Hoff].
  - rewrite (main_connects env es g data g' e k Hrun Hon).
    pose proof (ingest_never_constructs es INDEX_NAME data endpoint api_key).
    destruct Hon as (He & Hne & Hk & Hnk). rewrite He, Hk.
    destruct (new_client es e k); simpl; event_membership; split.
    + intros Hx. event_cases Hx.
      by injection Hx as -> ->.
    + intros ([= ->] & _ & [= ->] & _). auto.
    + intros Hx. event_cases Hx.
      by injection Hx as -> ->.
    + intros ([= ->] & _ & [= ->] & _). auto.
  - rewrite (main_skips env es g data g' Hrun Hoff). simpl. split.
    + event_membership. intros Hx.
      by event_cases Hx.
    + intros Hon. rewrite (configured_truthy env endpoint api_key Hon) in Hoff.
      done.
Qed.

(** X17: the exit code is 0 unless the construction of the client raises,
    in which case it is 1; a failure inside [ingest_data] never changes
    it. *)
Theorem exit_code_ignores_ingestion_failures
    (env : gmap string string) (es : backend) (g : G) :
  (exit_code (main env es g) = 0%Z ∨ exit_code (main env es g) = 1%Z) ∧
  (exit_code (main env es g) = 1%Z ↔
   ∃ endpoint api_key message,
     env !! "ELASTICSEARCH_ENDPOINT" = Some endpoint ∧ endpoint ≠ "" ∧
     env !! "API_KEY" = Some api_key ∧ api_key ≠ "" ∧
     new_client es endpoint api_key = inl message).
Proof.
  destruct (dataset_length g) as (data & g' & Hrun & _).
  destruct (configured_or_not env) as [(e & k & Hon) | Hoff].
  - rewrite (main_connects env es g data g' e k Hrun Hon).
    destruct Hon as (He & Hne & Hk & Hnk).
    destruct (new_client es e k) as [msg | []] eqn:Hc; simpl.
    + split; [by right |]. split; [| done]. intros _. by exists e, k, msg.
    + split; [by left |]. split; [done |].
      intros (e' & k' & msg & He' & _ & Hk' & _ & Hc').
      assert (e' = e) as -> by congruence.
      assert (k' = k) as -> by congruence. congruence.
  - rewrite (main_skips env es g data g' Hrun Hoff). simpl.
    split; [by left |]. split; [done |].
    intros (e & k & msg & He & Hne & Hk & Hnk & _).
    rewrite (configured_truthy env e k) in Hoff; done.
Qed.

(** X18: whatever the environment and the backend, the program holds the
    3000 generated records and its second line of output reports them. *)
Theorem main_reports_three_thousand_records
    (env : gmap string string) (es : backend) (g : G) :
  (∃ data, all_data (main env es g) = Some data ∧ length data = 3000) ∧
  trace (main env es g) !! 0
    = Some (Print "Starting synthetic data generation...") ∧
  trace (main env es g) !! 1
    = Some (Print "Generated 3000 total records for 100 patients").
Proof.
  destruct (dataset_length g) as (data & g' & Hrun & Hlen).
  change (NUM_PATIENTS * DAYS_OF_DATA) with 3000 in Hlen.
  assert (Hline : "Generated " +:+ pretty 3000 +:+ " total records for "
                    +:+ pretty NUM_PATIENTS +:+ " patients"
                  = "Generated 3000 total records for 100 patients")
    by (vm_compute; reflexivity).
  destruct (configured_or_not env) as [(e & k & Hon) | Hoff].
  - rewrite (main_connects env es g data g' e k Hrun Hon).
    rewrite Hlen, Hline. destruct (new_client es e k); simpl; by eauto.
  - rewrite (main_skips env es g data g' Hrun Hoff).
    rewrite Hlen, Hline. simpl. by eauto.
Qed.

(** X19: every bulk write the program submits goes to the index
    ["patients"] and carries all 3000 records. *)
Theorem main_bulk_writes_all_records_to_patients
    (env : gmap string string) (es : backend) (g : G) i k :
  Bulk i k ∈ trace (main env es g) → i = "patients" ∧ k = 3000.
Proof.
  destruct (dataset_length g) as (data & g' & Hrun & Hlen).
  change (NUM_PATIENTS * DAYS_OF_DATA) with 3000 in Hlen.
  destruct (configured_or_not env) as [(e & k' & Hon) | Hoff].
  - rewrite (main_connects env es g data g' e k' Hrun Hon).
    destruct (new_client es e k'); simpl; event_membership; intros Hx;
      event_cases Hx.
    apply ingest_bulk_arguments in Hx as [-> ->]. done.
  - rewrite (main_skips env es g data g' Hrun Hoff). simpl.
    event_membership. intros Hx.
    by event_cases Hx.
Qed.

End MainExtras.

(** ** The further properties at concrete runs *)

Module DemoBackends.

(** An index that exists and can be deleted, and a mapping file that is
    missing. *)
Definition missing_mapping : backend :=
  {| new_client := λ _ _, inr ();
     indices_exists := λ _, inr true;
     indices_delete := λ _, inr ();
     load_mapping := inl "No such file or directory";
     indices_create := λ _, inr ();
     bulk := λ _ data, inr (length data) |}.

Definition configured_env : gmap string string :=
  <["API_KEY" := "secret"]>
    (<["ELASTICSEARCH_ENDPOINT" := "https://localhost:9200"]> ∅).

End DemoBackends.








(** An empty base record meets the hypothesis of X4. *)
Lemma series_raises_on_malformed_base_witness :
  ((∅ : dict) !! "profile_type" = None ∨
   (∅ : dict) !! "discharge_date" = None ∨
   (∃ v, (∅ : dict) !! "discharge_date" = Some v ∧ is_string v = false)) ∧
  generate_daily_time_series ∅ ([] : Tape.tape) = None.
Proof.
  split; [left; reflexivity |].
  apply (series_raises_on_malformed_base ∅ ([] : Tape.tape)).
  left. reflexivity.
Defined.

(** With every call succeeding the bulk write of X13 is submitted. *)
Lemma bulk_write_follows_index_creation_witness :
  Bulk "patients" 0 ∈ ingest_data Demo.quiet_backend "patients" [] ∧
  IndicesCreate "patients" ∈ ingest_data Demo.quiet_backend "patients" [].
Proof.
  assert (Hbulk : Bulk "patients" 0
                  ∈ ingest_data Demo.quiet_backend "patients" []).
  { unfold ingest_data, ingest_body. simpl. event_membership. by auto 12. }
  split; [done |].
  by destruct (bulk_write_follows_index_creation
                 Demo.quiet_backend "patients" [] "patients" 0 Hbulk)
    as (_ & _ & Hcreate & _).
Defined.

(** The backend of [DemoBackends.missing_mapping] meets the hypotheses
    of X14. *)
Lemma failed_mapping_leaves_index_deleted_witness :
  IndicesDelete "patients"
    ∈ ingest_data DemoBackends.missing_mapping "patients" [] ∧
  (IndicesCreate "patients"
    ∉ ingest_data DemoBackends.missing_mapping "patients" []) ∧
  (∀ i k, Bulk i k ∉ ingest_data DemoBackends.missing_mapping "patients" []) ∧
  last (ingest_data DemoBackends.missing_mapping "patients" [])
    = Some (Print "An error occurred: No such file or directory").
Proof.
  apply (failed_mapping_leaves_index_deleted
           DemoBackends.missing_mapping "patients" []
           "No such file or directory"); reflexivity.
Defined.

(** With both variables set and every call succeeding the bulk write of
    X19 is submitted. *)
Lemma main_bulk_writes_all_records_to_patients_witness :
  ∃ k, Bulk "patients" k
         ∈ trace (main DemoBackends.configured_env Demo.quiet_backend
                       ([] : Tape.tape)) ∧
       k = 3000.
Proof.
  destruct (dataset_length ([] : Tape.tape)) as (data & g' & Hrun & Hlen).
  assert (Hon : configured DemoBackends.configured_env
                           "https://localhost:9200" "secret").
  { repeat split; done. }
  assert (Hbulk : Bulk "patients" (length data)
                  ∈ trace (main DemoBackends.configured_env Demo.quiet_backend
                                ([] : Tape.tape))).
  { pose proof (main_connects DemoBackends.configured_env Demo.quiet_backend
                  ([] : Tape.tape) data g' _ _ Hrun Hon) as Hmain.
    rewrite Hmain. simpl.
    unfold ingest_data, ingest_body. simpl. event_membership. by auto 20. }
  exists (length data). split; [done |].
  by destruct (main_bulk_writes_all_records_to_patients _ _ _ _ _ Hbulk).
Defined.
